(** * Verification of the finger counter and the CSV summary explorer

    Shallow embedding of [src/aifinger.py] and [src/streamlit_app.py].
    Python values are modelled as the interpreter has them: arbitrary
    precision integers as [Z], floats as IEEE binary64 values
    ([spec_float] at precision 53, maximal exponent 1024), exceptions as an
    explicit error result. *)

From Stdlib Require Import ZArith Lia Bool List String Ascii.
From Stdlib Require Import DecimalString Sorted Permutation.
From Stdlib Require Import Floats.SpecFloat.
From stdpp Require Import base tactics option list numbers strings.

Local Open Scope Z_scope.

(** ** Python exceptions and results *)

Module Py.

(** The exception classes that the two scripts can meet. *)
Inductive exn : Type :=
  | IndexError
  | OverflowError
  | UnicodeDecodeError
  | EmptyDataError
  | ParserError
  | ValueError
  | StreamlitInvalidMinMaxError.

(** [UnicodeDecodeError] is the class tested by the first handler of the
    loader; every class above derives from [Exception]. *)
Definition is_UnicodeDecodeError (e : exn) : bool :=
  match e with UnicodeDecodeError => true | _ => false end.

Inductive result (A : Type) : Type :=
  | Ok (a : A)
  | Raise (e : exn).
Arguments Ok {A} a.
Arguments Raise {A} e.

#[global] Instance result_ret : MRet result := fun A a => Ok a.
#[global] Instance result_bind : MBind result := fun A B f m =>
  match m with
  | Ok a => f a
  | Raise e => Raise e
  end.

(** [for v in l: acc = body(acc, v)], stopping at the first exception. *)
Fixpoint for_each {A B : Type} (body : B -> A -> result B) (l : list A) (acc : B)
  : result B :=
  match l with
  | [] => Ok acc
  | v :: l' => acc' ← body acc v; for_each body l' acc'
  end.

(** [l[i]] for a non-negative index. *)
Definition getitem {A : Type} (l : list A) (i : nat) : result A :=
  match l !! i with
  | Some a => Ok a
  | None => Raise IndexError
  end.

(** [range(a, b)] *)
Definition range (a b : nat) : list nat := seq a (b - a).

(** *** Floats *)

Definition prec : Z := 53.
Definition emax : Z := 1024.

Abbreviation float := spec_float.

(** The binary64 value nearest to an integer: exact below 2^53. It is the
    value of an integer literal used as a float and the conversion of an
    [int64] array to [float64]. *)
Definition to_float64 (n : Z) : float := binary_normalize prec emax n 0 false.

Definition flt (a b : float) : bool := SFltb a b.
Definition fdiv (a b : float) : float := SFdiv prec emax a b.
Definition fmul (a b : float) : float := SFmul prec emax a b.

(** [a / b] rounded to the nearest integer, ties to the even one
    ([a >= 0], [b > 0]). *)
Definition round_half_even (a b : Z) : Z :=
  let q := a / b in
  let r := a mod b in
  if (b <? 2 * r) || ((2 * r =? b) && Z.odd q) then q + 1 else q.

(** [n * 2^k] as a float: the nearest binary64 value, ties to even, as IEEE
    754 rounds; [OverflowError] when that value is not finite. This is how the
    interpreter converts an integer to a float ([k = 0]) and how it divides
    an integer by a power of two ([k < 0]). *)
Definition scaled_int (n k : Z) : result float :=
  match binary_normalize prec emax n k false with
  | S754_infinity _ => Raise OverflowError
  | f => Ok f
  end.

(** The same rounding written with integer arithmetic, for an integer
    [a > 0] and sign [s]: [a] is cut to its 53 leading bits, rounded to
    nearest, ties to even. *)
Definition nearest_float (s : bool) (a k : Z) : result float :=
  let d := Z.log2 a + 1 in
  let '(m, e) :=
    if d <=? prec then (a * 2 ^ (prec - d), k - (prec - d))
    else
      let q := round_half_even a (2 ^ (d - prec)) in
      if q =? 2 ^ prec then (2 ^ (prec - 1), k + (d - prec) + 1)
      else (q, k + (d - prec)) in
  if emax - prec <? e then Raise OverflowError
  else Ok (S754_finite s (Z.to_pos m) e).

(** [float(n)] *)
Definition float_of_int (n : Z) : result float := scaled_int n 0.

(** A number held by a variable that starts as an [int] and becomes a
    [float] once it has been divided. *)
Inductive num : Type :=
  | Int (n : Z)
  | Float (f : float).

(** [v < 1024] *)
Definition lt_1024 (v : num) : bool :=
  match v with
  | Int n => n <? 1024
  | Float f => flt f (to_float64 1024)
  end.

(** [v / 1024]: true division. *)
Definition truediv_1024 (v : num) : result num :=
  match v with
  | Int n => f ← scaled_int n (-10); Ok (Float f)
  | Float f => Ok (Float (fdiv f (to_float64 1024)))
  end.

(** *** Formatting with [:.2f] *)

Definition digit (n : Z) : ascii := ascii_of_nat (48 + Z.to_nat n).

Definition is_digit (c : ascii) : Prop := exists n, 0 <= n <= 9 /\ c = digit n.

Definition decimal (n : Z) : string := NilZero.string_of_uint (N.to_uint (Z.to_N n)).

(** A non-negative number of hundredths, printed with two decimals. *)
Definition fixed2 (hundredths : Z) : string :=
  (decimal (hundredths / 100) ++ "."
   ++ String (digit (hundredths / 10 mod 10)) (String (digit (hundredths mod 10)) ""))%string.

Definition sign_prefix (s : bool) : string := if s then "-"%string else ""%string.

(** The value [m * 2^e] in hundredths, rounded to nearest, ties to even. *)
Definition hundredths_of (m : positive) (e : Z) : Z :=
  if 0 <=? e then Zpos m * 2 ^ e * 100
  else round_half_even (Zpos m * 100) (2 ^ (- e)).

Definition format_float_2f (f : float) : string :=
  match f with
  | S754_zero s => (sign_prefix s ++ "0.00")%string
  | S754_infinity s => (sign_prefix s ++ "inf")%string
  | S754_nan => "nan"%string
  | S754_finite s m e => (sign_prefix s ++ fixed2 (hundredths_of m e))%string
  end.

(** [f"{v:.2f}"]: an integer is converted to a float first. *)
Definition format_2f (v : num) : result string :=
  match v with
  | Int n => f ← float_of_int n; Ok (format_float_2f f)
  | Float f => Ok (format_float_2f f)
  end.

(** The text of a finite float: an integer part, a point, two digits. *)
Definition two_decimals (text : string) : Prop :=
  exists (whole : string) (d1 d2 : ascii),
    text = (whole ++ "." ++ String d1 (String d2 ""))%string /\
    is_digit d1 /\ is_digit d2.

(** *** Facts about the number model *)

Lemma round_half_even_bounds a b :
  0 <= a -> 0 < b ->
  a / b <= round_half_even a b <= a / b + 1.
Proof.
  intros _ _. unfold round_half_even.
  destruct ((b <? 2 * (a mod b)) || ((2 * (a mod b) =? b) && Z.odd (a / b))); lia.
Qed.

(** Rounding up needs a remainder of at least half the divisor. *)
Lemma round_half_even_up a b :
  round_half_even a b = a / b + 1 -> b <= 2 * (a mod b).
Proof.
  unfold round_half_even.
  destruct (Z.ltb_spec b (2 * (a mod b))); cbn; [lia|].
  destruct (Z.eqb_spec (2 * (a mod b)) b); cbn; [lia|].
  lia.
Qed.

Lemma nearest_float_finite s a k :
  0 < a -> k <= 0 -> a < 2 ^ (1024 - k) - 2 ^ (970 - k) ->
  exists m e,
    nearest_float s a k = Ok (S754_finite s m e) /\
    2 ^ 52 <= Zpos m < 2 ^ 53 /\ k - 52 <= e <= 971.
Proof.
  intros Ha Hk Hlt.
  unfold nearest_float, prec, emax.
  pose proof (Z.log2_spec a Ha) as [Hlo Hhi].
  pose proof (Z.log2_nonneg a) as Hnn.
  set (d := Z.log2 a + 1) in *.
  replace (Z.succ (Z.log2 a)) with d in Hhi by (unfold d; lia).
  replace (Z.log2 a) with (d - 1) in Hlo by (unfold d; lia).
  assert (Hd1 : 1 <= d) by (unfold d; lia).
  assert (HH : 0 < 2 ^ (970 - k)) by (apply Z.pow_pos_nonneg; lia).
  assert (Hd : d <= 1024 - k).
  { destruct (Z.le_gt_cases d (1024 - k)) as [|Hgt]; [assumption|].
    assert (2 ^ (1024 - k) <= 2 ^ (d - 1)) by (apply Z.pow_le_mono_r; lia). lia. }
  destruct (Z.leb_spec d 53) as [Hsmall|Hbig].
  - (* at most 53 bits: exact *)
    assert (E1 : 2 ^ (d - 1) * 2 ^ (53 - d) = 2 ^ 52)
      by (rewrite <- Z.pow_add_r by lia; f_equal; lia).
    assert (E2 : 2 ^ d * 2 ^ (53 - d) = 2 ^ 53)
      by (rewrite <- Z.pow_add_r by lia; f_equal; lia).
    assert (Hp : 0 < 2 ^ (53 - d)) by (apply Z.pow_pos_nonneg; lia).
    assert (Hm : 2 ^ 52 <= a * 2 ^ (53 - d) < 2 ^ 53) by nia.
    destruct (Z.ltb_spec (1024 - 53) (k - (53 - d))) as [|_]; [lia|].
    exists (Z.to_pos (a * 2 ^ (53 - d))), (k - (53 - d)).
    split; [reflexivity|]. rewrite Z2Pos.id by lia. lia.
  - (* more than 53 bits: rounded *)
    set (P := 2 ^ (d - 53)) in *.
    assert (HP : 0 < P) by (apply Z.pow_pos_nonneg; lia).
    assert (E1 : 2 ^ (d - 1) = 2 ^ 52 * P)
      by (unfold P; rewrite <- Z.pow_add_r by lia; f_equal; lia).
    assert (E2 : 2 ^ d = 2 ^ 53 * P)
      by (unfold P; rewrite <- Z.pow_add_r by lia; f_equal; lia).
    pose proof (Z.div_mod a P ltac:(lia)) as Hdm.
    pose proof (Z.mod_pos_bound a P HP) as Hr.
    assert (Hq : 2 ^ 52 <= a / P < 2 ^ 53).
    { split; [apply Z.div_le_lower_bound; lia | apply Z.div_lt_upper_bound; lia]. }
    pose proof (round_half_even_bounds a P ltac:(lia) HP) as Hb.
    destruct (Z.eqb_spec (round_half_even a P) (2 ^ 53)) as [Hcarry|Hnc].
    + (* the mantissa carries into the next binade *)
      assert (Hup : round_half_even a P = a / P + 1) by lia.
      apply round_half_even_up in Hup.
      assert (d <= 1023 - k).
      { destruct (Z.le_gt_cases d (1023 - k)) as [|Hgt]; [assumption|exfalso].
        assert (d = 1024 - k) by lia.
        assert (EP : P = 2 * 2 ^ (970 - k)).
        { unfold P. replace (d - 53) with (1 + (970 - k)) by lia.
          rewrite Z.pow_add_r by lia. reflexivity. }
        assert (ET : 2 ^ (1024 - k) = 2 ^ 53 * P) by (rewrite <- E2; f_equal; lia).
        assert (a / P = 2 ^ 53 - 1) by lia.
        nia. }
      destruct (Z.ltb_spec (1024 - 53) (k + (d - 53) + 1)) as [|_]; [lia|].
      exists (Z.to_pos (2 ^ (53 - 1))), (k + (d - 53) + 1).
      split; [reflexivity|]. rewrite Z2Pos.id by (apply Z.pow_pos_nonneg; lia).
      change (53 - 1) with 52. lia.
    + destruct (Z.ltb_spec (1024 - 53) (k + (d - 53))) as [|_]; [lia|].
      exists (Z.to_pos (round_half_even a P)), (k + (d - 53)).
      split; [reflexivity|]. rewrite Z2Pos.id by lia. lia.
Qed.

Lemma nearest_float_overflow s a k :
  0 < a -> k <= 0 -> 2 ^ (1024 - k) - 2 ^ (970 - k) <= a ->
  nearest_float s a k = Raise OverflowError.
Proof.
  intros Ha Hk Hge.
  unfold nearest_float, prec, emax.
  pose proof (Z.log2_spec a Ha) as [Hlo Hhi].
  set (d := Z.log2 a + 1) in *.
  replace (Z.succ (Z.log2 a)) with d in Hhi by (unfold d; lia).
  replace (Z.log2 a) with (d - 1) in Hlo by (unfold d; lia).
  set (H := 2 ^ (970 - k)) in *.
  assert (HH : 0 < H) by (apply Z.pow_pos_nonneg; lia).
  assert (ET : 2 ^ (1024 - k) = 2 ^ 54 * H).
  { unfold H. rewrite <- Z.pow_add_r by lia. f_equal; lia. }
  assert (ET' : 2 ^ (1023 - k) = 2 ^ 53 * H).
  { unfold H. rewrite <- Z.pow_add_r by lia. f_equal; lia. }
  assert (Hd : 1024 - k <= d).
  { destruct (Z.le_gt_cases (1024 - k) d) as [|Hgt]; [assumption|exfalso].
    assert (2 ^ d <= 2 ^ (1023 - k)) by (apply Z.pow_le_mono_r; lia). lia. }
  destruct (Z.leb_spec d 53) as [|_]; [lia|].
  set (P := 2 ^ (d - 53)) in *.
  assert (HP : 0 < P) by (apply Z.pow_pos_nonneg; lia).
  destruct (Z.eqb_spec (round_half_even a P) (2 ^ 53)) as [Hcarry|Hnc].
  - destruct (Z.ltb_spec (1024 - 53) (k + (d - 53) + 1)) as [_|]; [reflexivity|lia].
  - destruct (Z.ltb_spec (1024 - 53) (k + (d - 53))) as [_|Hle]; [reflexivity|exfalso].
    assert (d = 1024 - k) by lia.
    assert (EP : P = 2 * H).
    { unfold P, H. replace (d - 53) with (1 + (970 - k)) by lia.
      rewrite Z.pow_add_r by lia. reflexivity. }
    assert (E2 : 2 ^ d = 2 ^ 54 * H) by (rewrite <- ET; f_equal; lia).
    pose proof (Z.div_mod a P ltac:(lia)) as Hdm.
    pose proof (Z.mod_pos_bound a P HP) as Hr.
    assert (Hq : a / P = 2 ^ 53 - 1).
    { assert (2 ^ 53 - 1 <= a / P) by (apply Z.div_le_lower_bound; lia).
      assert (a / P < 2 ^ 53) by (apply Z.div_lt_upper_bound; lia).
      lia. }
    apply Hnc. unfold round_half_even. rewrite Hq.
    assert (Hr2 : P <= 2 * (a mod P)) by nia.
    destruct (Z.ltb_spec P (2 * (a mod P))) as [|Hle']; cbn [orb]; [lia|].
    assert (E : 2 * (a mod P) = P) by lia.
    rewrite E, Z.eqb_refl. cbn [andb].
    replace (Z.odd (2 ^ 53 - 1)) with true by (vm_compute; reflexivity).
    lia.
Qed.

(** digits2_pos counts the bits. *)
Lemma digits2_pos_bounds p :
  2 ^ (Zpos (digits2_pos p) - 1) <= Zpos p < 2 ^ Zpos (digits2_pos p).
Proof.
  induction p as [p IH|p IH|]; cbn [digits2_pos].
  - rewrite Pos2Z.inj_succ.
    replace (Z.succ (Zpos (digits2_pos p)) - 1) with (Zpos (digits2_pos p) - 1 + 1) by lia.
    rewrite Z.pow_succ_r by lia. rewrite Z.pow_add_r by lia. lia.
  - rewrite Pos2Z.inj_succ.
    replace (Z.succ (Zpos (digits2_pos p)) - 1) with (Zpos (digits2_pos p) - 1 + 1) by lia.
    rewrite Z.pow_succ_r by lia. rewrite Z.pow_add_r by lia. lia.
  - cbn. lia.
Qed.

Lemma digits2_pos_53 p : 2 ^ 52 <= Zpos p < 2 ^ 53 -> digits2_pos p = 53%positive.
Proof.
  intros Hp. pose proof (digits2_pos_bounds p) as Hb.
  assert (Zpos (digits2_pos p) = 53); [|lia].
  destruct (Z.lt_trichotomy (Zpos (digits2_pos p)) 53) as [Hlt|[Heq|Hgt]]; [exfalso|assumption|exfalso].
  - assert (2 ^ Zpos (digits2_pos p) <= 2 ^ 52) by (apply Z.pow_le_mono_r; lia). lia.
  - assert (2 ^ 53 <= 2 ^ (Zpos (digits2_pos p) - 1)) by (apply Z.pow_le_mono_r; lia). lia.
Qed.

(** Rounding an even 54-bit mantissa is exact: one bit is shifted out. *)
Lemma binary_round_aux_even s m e :
  digits2_pos m = 53%positive -> -1075 <= e <= 970 ->
  binary_round_aux 53 1024 s (Zpos m~0) e loc_Exact = S754_finite s m (e + 1).
Proof.
  intros Hm He.
  unfold binary_round_aux, shr_fexp.
  cbn [Zdigits2 digits2_pos shr_record_of_loc]. rewrite Hm.
  unfold fexp, emin.
  replace (Z.max (Zpos (Pos.succ 53) + e - 53) (3 - 1024 - 53) - e) with 1 by lia.
  change (shr {| shr_m := Zpos m~0; shr_r := false; shr_s := false |} e 1)
    with ({| shr_m := Zpos m; shr_r := false; shr_s := false |}, e + 1).
  cbv beta iota.
  cbn [shr_m loc_of_shr_record round_nearest_even Zdigits2 shr_record_of_loc].
  rewrite Hm.
  replace (Z.max (53 + (e + 1) - 53) (3 - 1024 - 53) - (e + 1)) with 0 by lia.
  cbn [shr shr_m shr_record_of_loc].
  destruct (Z.leb_spec (e + 1) (1024 - 53)); [reflexivity|lia].
Qed.

(** Dividing a normal number by 1024 only lowers its exponent, as long as
    the quotient is normal too. *)
Lemma fdiv_1024_exact s m e :
  digits2_pos m = 53%positive -> -1063 <= e <= 971 ->
  fdiv (S754_finite s m e) (to_float64 1024) = S754_finite s m (e - 10).
Proof.
  intros Hm He.
  change (to_float64 1024) with (S754_finite false 4503599627370496 (-42)).
  unfold fdiv, SFdiv, SFdiv_core_binary.
  cbn [Zdigits2]. rewrite Hm.
  change (digits2_pos 4503599627370496) with 53%positive.
  unfold fexp, emin, prec, emax.
  replace (Z.min (Z.max (53 + e - (53 + -42) - 53) (3 - 1024 - 53)) (e - -42))
    with (e - 11) by lia.
  replace (e - -42 - (e - 11)) with 53 by lia.
  assert (Hde : IntDef.Z.div_eucl (Z.shiftl (Zpos m) 53) 4503599627370496
                = (Zpos m~0, 0)).
  { change IntDef.Z.div_eucl with Z.div_eucl.
    pose proof (Z.div_eucl_eq (Z.shiftl (Zpos m) 53) 4503599627370496 ltac:(lia)) as Heq.
    pose proof (Z.mod_pos_bound (Z.shiftl (Zpos m) 53) 4503599627370496 ltac:(lia)) as Hb.
    unfold Z.modulo in Hb.
    destruct (Z.div_eucl (Z.shiftl (Zpos m) 53) 4503599627370496) as [q r].
    rewrite Z.shiftl_mul_pow2 in Heq by lia.
    change (2 ^ 53) with 9007199254740992 in Heq.
    assert (q = Zpos m~0 /\ r = 0) as [-> ->] by lia. reflexivity. }
  rewrite Hde.
  change (new_location 4503599627370496 0) with loc_Exact.
  rewrite xorb_false_r, binary_round_aux_even by (assumption || lia).
  f_equal. lia.
Qed.

Lemma nearest_float_cases s a k :
  (exists m e, nearest_float s a k = Ok (S754_finite s m e)) \/
  nearest_float s a k = Raise OverflowError.
Proof.
  unfold nearest_float.
  destruct (Z.log2 a + 1 <=? prec);
    [|destruct (round_half_even a (2 ^ (Z.log2 a + 1 - prec)) =? 2 ^ prec)];
    match goal with |- context [?x <? ?y] => destruct (x <? y) end; eauto.
Qed.

Lemma digits2_pos_log2 p : Zpos (digits2_pos p) = Z.log2 (Zpos p) + 1.
Proof.
  pose proof (digits2_pos_bounds p) as [H1 H2].
  assert (Z.log2 (Zpos p) = Zpos (digits2_pos p) - 1); [|lia].
  apply Z.log2_unique; [lia|]. split; [exact H1|].
  replace (Z.succ (Zpos (digits2_pos p) - 1)) with (Zpos (digits2_pos p)) by lia.
  exact H2.
Qed.

Lemma iter_xO_pow2 p x : Zpos (Pos.iter xO p x) = Zpos p * 2 ^ Zpos x.
Proof.
  rewrite <- Z.shiftl_mul_pow2 by lia. cbn [Z.shiftl].
  apply (Pos.iter_swap_gen _ _ Zpos xO (Z.mul 2)). reflexivity.
Qed.

Lemma iter_pos_nat {A} (f : A -> A) p x :
  SpecFloat.iter_pos f p x = Nat.iter (Pos.to_nat p) f x.
Proof.
  revert x. induction p as [p IH|p IH|]; intros x; cbn [SpecFloat.iter_pos].
  - rewrite !IH, Pos2Nat.inj_xI. set (n := Pos.to_nat p).
    replace (S (2 * n)) with (n + (n + 1))%nat by lia.
    rewrite !Nat.iter_add. reflexivity.
  - rewrite !IH, Pos2Nat.inj_xO. set (n := Pos.to_nat p).
    replace (2 * n)%nat with (n + n)%nat by lia.
    rewrite Nat.iter_add. reflexivity.
  - reflexivity.
Qed.

Lemma shr_1_nonneg_eq m r s0 :
  0 <= m ->
  shr_1 {| shr_m := m; shr_r := r; shr_s := s0 |}
  = {| shr_m := m / 2; shr_r := Z.odd m; shr_s := r || s0 |}.
Proof.
  intros Hm. destruct m as [|[p|p|]|p]; try lia; cbn [shr_1 Z.odd].
  - reflexivity.
  - f_equal. rewrite Pos2Z.inj_xI. apply Z.div_unique with 1; lia.
  - f_equal. rewrite Pos2Z.inj_xO. apply Z.div_unique with 0; lia.
  - reflexivity.
Qed.

Lemma shr_iter (n : nat) (m : Z) :
  0 <= m ->
  Nat.iter (S n) shr_1 {| shr_m := m; shr_r := false; shr_s := false |}
  = {| shr_m := m / 2 ^ Z.of_nat (S n);
       shr_r := Z.odd (m / 2 ^ Z.of_nat n);
       shr_s := negb (m mod 2 ^ Z.of_nat n =? 0) |}.
Proof.
  intros Hm. induction n as [|n IH].
  - cbn [Nat.iter]. rewrite shr_1_nonneg_eq by lia.
    change (2 ^ Z.of_nat 1) with 2. change (2 ^ Z.of_nat 0) with 1.
    rewrite Z.div_1_r, Z.mod_1_r. reflexivity.
  - change (Nat.iter (S (S n)) shr_1 ?x) with (shr_1 (Nat.iter (S n) shr_1 x)).
    rewrite IH.
    assert (Hp : 0 < 2 ^ Z.of_nat n) by (apply Z.pow_pos_nonneg; lia).
    assert (Hp1 : 2 ^ Z.of_nat (S n) = 2 ^ Z.of_nat n * 2)
      by (rewrite Nat2Z.inj_succ, Z.pow_succ_r by lia; lia).
    assert (Hp2 : 2 ^ Z.of_nat (S (S n)) = 2 ^ Z.of_nat (S n) * 2)
      by (rewrite (Nat2Z.inj_succ (S n)), Z.pow_succ_r by lia; lia).
    rewrite shr_1_nonneg_eq by (apply Z.div_pos; lia).
    f_equal.
    + rewrite Hp2, Z.div_div by lia. reflexivity.
    + rewrite Hp1. rewrite Z.rem_mul_r by lia.
      pose proof (Z.mod_pos_bound m (2 ^ Z.of_nat n) Hp) as Hb.
      rewrite <- Z.bit0_mod, Z.bit0_odd.
      destruct (Z.odd (m / 2 ^ Z.of_nat n)); cbn [Z.b2z orb].
      * symmetry. apply negb_true_iff, Z.eqb_neq. lia.
      * rewrite Z.mul_0_r, Z.add_0_r. reflexivity.
Qed.

Lemma binary_round_aux_exact s m e :
  digits2_pos m = 53%positive -> -1074 <= e ->
  binary_round_aux prec emax s (Zpos m) e loc_Exact
  = if e <=? emax - prec then S754_finite s m e else S754_infinity s.
Proof.
  intros Hm He. unfold binary_round_aux, shr_fexp.
  cbn [Zdigits2 shr_record_of_loc]. rewrite Hm.
  unfold fexp, emin, prec, emax.
  replace (Z.max (53 + e - 53) (3 - 1024 - 53) - e) with 0 by lia.
  cbn [shr shr_m loc_of_shr_record round_nearest_even Zdigits2 shr_record_of_loc].
  rewrite Hm.
  replace (Z.max (53 + e - 53) (3 - 1024 - 53) - e) with 0 by lia.
  reflexivity.
Qed.

(** The rounding decided by the two bits kept while shifting is the
    rounding to nearest, ties to even. *)
Lemma round_nearest_even_shr (a : Z) (x : positive) :
  0 <= a ->
  let mrs := SpecFloat.iter_pos shr_1 x {| shr_m := a; shr_r := false; shr_s := false |} in
  round_nearest_even (shr_m mrs) (loc_of_shr_record mrs)
  = round_half_even a (2 ^ Zpos x).
Proof.
  intros Ha mrs. subst mrs. rewrite iter_pos_nat.
  destruct (Pos2Nat.is_succ x) as [n Hn]. rewrite Hn, shr_iter by lia.
  assert (Hx : Zpos x = Z.of_nat (S n)) by lia.
  rewrite Hx. cbn [shr_m].
  set (h := 2 ^ Z.of_nat n).
  assert (Hh : 0 < h) by (apply Z.pow_pos_nonneg; lia).
  assert (Hb : 2 ^ Z.of_nat (S n) = h * 2)
    by (unfold h; rewrite Nat2Z.inj_succ, Z.pow_succ_r by lia; lia).
  unfold round_half_even. rewrite Hb.
  rewrite (Z.rem_mul_r a h 2) by lia.
  pose proof (Z.mod_pos_bound a h Hh) as Hlow.
  rewrite <- (Z.bit0_mod (a / h)), Z.bit0_odd.
  rewrite <- (Z.div_div a h 2) by lia.
  set (q := a / h / 2).
  destruct (Z.odd (a / h)) eqn:Hr; cbn [Z.b2z];
    destruct (Z.eqb_spec (a mod h) 0) as [Hl|Hl]; cbn [negb loc_of_shr_record round_nearest_even].
  - (* exactly half *)
    rewrite Hl. replace (h * 2 <? 2 * (0 + h * 1)) with false by (symmetry; apply Z.ltb_ge; lia).
    replace (2 * (0 + h * 1) =? h * 2) with true by (symmetry; apply Z.eqb_eq; lia).
    cbn [orb andb]. rewrite <- Z.negb_even. destruct (Z.even q); reflexivity.
  - replace (h * 2 <? 2 * (a mod h + h * 1)) with true by (symmetry; apply Z.ltb_lt; lia).
    reflexivity.
  - rewrite Hl.
    replace (h * 2 <? 2 * (0 + h * 0)) with false by (symmetry; apply Z.ltb_ge; lia).
    replace (2 * (0 + h * 0) =? h * 2) with false by (symmetry; apply Z.eqb_neq; lia).
    reflexivity.
  - replace (h * 2 <? 2 * (a mod h + h * 0)) with false by (symmetry; apply Z.ltb_ge; lia).
    replace (2 * (a mod h + h * 0) =? h * 2) with false by (symmetry; apply Z.eqb_neq; lia).
    reflexivity.
Qed.

(** For an integer scaled by a power of two in the range where no
    subnormal number arises, the IEEE rounding of the standard library is
    [nearest_float]. *)
Lemma binary_round_nearest s p k :
  -1021 <= k ->
  binary_round prec emax s p k
  = match nearest_float s (Zpos p) k with
    | Ok f => f
    | Raise _ => S754_infinity s
    end.
Proof.
  intros Hk. unfold binary_round, nearest_float.
  pose proof (digits2_pos_log2 p) as Hd.
  pose proof (digits2_pos_bounds p) as Hb.
  rewrite <- Hd. set (d := Zpos (digits2_pos p)) in *.
  assert (Hd1 : 1 <= d) by (unfold d; lia).
  unfold fexp, emin. fold prec emax.
  replace (Z.max (d + k - prec) (3 - emax - prec)) with (d + k - prec)
    by (unfold prec, emax; lia).
  unfold shl_align.
  replace (d + k - prec - k) with (d - prec) by lia.
  destruct (Z.leb_spec d prec) as [Hle|Hgt].
  - (* at most 53 bits: the mantissa is shifted left, nothing is lost *)
    assert (Hm : 2 ^ 52 <= Zpos p * 2 ^ (prec - d) < 2 ^ 53).
    { unfold prec in *.
      assert (E1 : 2 ^ (d - 1) * 2 ^ (53 - d) = 2 ^ 52)
        by (rewrite <- Z.pow_add_r by lia; f_equal; lia).
      assert (E2 : 2 ^ d * 2 ^ (53 - d) = 2 ^ 53)
        by (rewrite <- Z.pow_add_r by lia; f_equal; lia).
      assert (0 < 2 ^ (53 - d)) by (apply Z.pow_pos_nonneg; lia).
      nia. }
    assert (Hres : forall mz : positive,
               Zpos mz = Zpos p * 2 ^ (prec - d) ->
               binary_round_aux prec emax s (Zpos mz) (k - (prec - d)) loc_Exact
               = (if emax - prec <? k - (prec - d) then S754_infinity s
                  else S754_finite s (Z.to_pos (Zpos p * 2 ^ (prec - d))) (k - (prec - d)))).
    { intros mz Hmz. rewrite binary_round_aux_exact.
      - rewrite <- Hmz. cbn [Z.to_pos].
        destruct (Z.leb_spec (k - (prec - d)) (emax - prec)),
                 (Z.ltb_spec (emax - prec) (k - (prec - d))); try lia; reflexivity.
      - apply digits2_pos_53. rewrite Hmz. exact Hm.
      - unfold prec in *. lia. }
    destruct (d - prec) as [|x|x] eqn:Hx.
    + replace (prec - d) with 0 in * by lia.
      replace (k - 0) with k in Hres by lia.
      rewrite (Hres p) by lia.
      replace (k - 0) with k by lia.
      destruct (emax - prec <? k); reflexivity.
    + lia.
    + replace (d + k - prec) with (k - (prec - d)) by lia.
      rewrite (Hres (Pos.iter xO p x)).
      * destruct (emax - prec <? k - (prec - d)); reflexivity.
      * rewrite iter_xO_pow2. f_equal. f_equal. lia.
  - (* more than 53 bits: the low bits are shifted out and rounded *)
    destruct (d - prec) as [|x|x] eqn:Hx; try lia.
    unfold binary_round_aux at 1. unfold shr_fexp at 1.
    cbn [Zdigits2 shr_record_of_loc]. fold d.
    unfold fexp, emin. fold prec emax.
    replace (Z.max (d + k - prec) (3 - emax - prec) - k) with (Zpos x)
      by (unfold prec, emax in *; lia).
    cbn [shr].
    rewrite (round_nearest_even_shr (Zpos p) x) by lia.
    set (q := round_half_even (Zpos p) (2 ^ Zpos x)).
    set (P := 2 ^ Zpos x) in *.
    assert (HP : 0 < P) by (apply Z.pow_pos_nonneg; lia).
    assert (E1 : 2 ^ (d - 1) = 2 ^ 52 * P).
    { unfold P. rewrite <- Z.pow_add_r by lia. f_equal. unfold prec in *; lia. }
    assert (E2 : 2 ^ d = 2 ^ 53 * P).
    { unfold P. rewrite <- Z.pow_add_r by lia. f_equal. unfold prec in *; lia. }
    assert (Hq0 : 2 ^ 52 <= Zpos p / P < 2 ^ 53).
    { split; [apply Z.div_le_lower_bound; lia | apply Z.div_lt_upper_bound; lia]. }
    pose proof (round_half_even_bounds (Zpos p) P ltac:(lia) HP) as Hq.
    fold q in Hq.
    destruct (Z.eqb_spec q (2 ^ prec)) as [Hcarry|Hnc].
    + (* the rounded mantissa is 2^53: one more bit is shifted out *)
      rewrite Hcarry. unfold shr_fexp.
      change (Zdigits2 (2 ^ prec)) with 54.
      unfold fexp, emin. fold prec emax.
      replace (Z.max (54 + (k + Zpos x) - prec) (3 - emax - prec) - (k + Zpos x))
        with 1 by (unfold prec, emax in *; lia).
      change (shr (shr_record_of_loc (2 ^ prec) loc_Exact) (k + Zpos x) 1)
        with ({| shr_m := 2 ^ (prec - 1); shr_r := false; shr_s := false |},
              k + Zpos x + 1).
      cbv beta iota. cbn [shr_m].
      change (2 ^ (prec - 1)) with (Zpos (Z.to_pos (2 ^ (prec - 1)))).
      cbv beta iota.
      destruct (Z.leb_spec (k + Zpos x + 1) (emax - prec)),
               (Z.ltb_spec (emax - prec) (k + Zpos x + 1)); try lia; reflexivity.
    + assert (Hqr : 2 ^ 52 <= q < 2 ^ 53) by (unfold prec in *; lia).
      destruct q as [|qp|qp] eqn:Eq; try lia.
      unfold shr_fexp. cbn [Zdigits2 shr_record_of_loc].
      rewrite (digits2_pos_53 qp Hqr).
      unfold fexp, emin. fold prec emax.
      replace (Z.max (prec + (k + Zpos x) - prec) (3 - emax - prec) - (k + Zpos x))
        with 0 by (unfold prec, emax in *; lia).
      cbn [shr shr_m Z.to_pos].
      destruct (Z.leb_spec (k + Zpos x) (emax - prec)),
               (Z.ltb_spec (emax - prec) (k + Zpos x)); try lia; reflexivity.
Qed.

(** [scaled_int] in integer arithmetic. *)
Lemma scaled_int_nearest n k :
  -1021 <= k ->
  scaled_int n k
  = match n with
    | Z0 => Ok (S754_zero false)
    | Zpos _ => nearest_float false n k
    | Zneg _ => nearest_float true (- n) k
    end.
Proof.
  intros Hk. unfold scaled_int, binary_normalize.
  destruct n as [|p|p]; [reflexivity| |]; rewrite binary_round_nearest by exact Hk.
  - destruct (nearest_float_cases false (Zpos p) k) as [(m & e & H)|H];
      rewrite H; reflexivity.
  - change (- Zneg p) with (Zpos p).
    destruct (nearest_float_cases true (Zpos p) k) as [(m & e & H)|H];
      rewrite H; reflexivity.
Qed.

Lemma digit_is_digit n : 0 <= n <= 9 -> is_digit (digit n).
Proof. intros Hn. exists n. split; [exact Hn | reflexivity]. Qed.

Lemma fixed2_two_decimals s n : two_decimals (sign_prefix s ++ fixed2 n).
Proof.
  exists (sign_prefix s ++ decimal (n / 100))%string,
         (digit (n / 10 mod 10)), (digit (n mod 10)).
  split; [destruct s; reflexivity|].
  split; apply digit_is_digit.
  - pose proof (Z.mod_pos_bound (n / 10) 10 ltac:(lia)); lia.
  - pose proof (Z.mod_pos_bound n 10 ltac:(lia)); lia.
Qed.

Lemma format_float_2f_finite s m e : two_decimals (format_float_2f (S754_finite s m e)).
Proof. apply fixed2_two_decimals. Qed.

Lemma format_float_2f_zero s : two_decimals (format_float_2f (S754_zero s)).
Proof. apply (fixed2_two_decimals s 0). Qed.

End Py.

(** ** src/aifinger.py *)

Module Aifinger.
Import Py.

(** A landmark as MediaPipe delivers it: three coordinates, floats. *)
Module Landmark.
Record t : Type := mk { x : float; y : float; z : float }.
End Landmark.

(** [hand_landmarks]: the object whose [landmark] field is the sequence of
    landmarks of one hand. *)
Record NormalizedLandmarkList : Type := { landmark : list Landmark.t }.

Definition tip_ids : list nat := [4; 8; 12; 16; 20]%nat.

(** The list [fingers] at the end of [count_fingers], before it is summed. *)
Definition fingers_of (hand_landmarks : NormalizedLandmarkList) : result (list Z) :=
  let fingers : list Z := [] in
  (* Thumb *)
  t ← getitem tip_ids 0;
  a ← getitem (landmark hand_landmarks) t;
  b ← getitem (landmark hand_landmarks) (t - 1);
  let fingers := if flt (Landmark.x a) (Landmark.x b)
                 then fingers ++ [1] else fingers ++ [0] in
  (* Other fingers *)
  for_each (fun fingers id =>
      t ← getitem tip_ids id;
      a ← getitem (landmark hand_landmarks) t;
      b ← getitem (landmark hand_landmarks) (t - 2);
      if flt (Landmark.y a) (Landmark.y b)
      then Ok (fingers ++ [1]) else Ok (fingers ++ [0]))
    (range 1 5) fingers.

(** [sum(fingers)] *)
Definition sum (l : list Z) : Z := fold_left Z.add l 0.

Definition count_fingers (hand_landmarks : NormalizedLandmarkList) : result Z :=
  fingers ← fingers_of hand_landmarks; Ok (sum fingers).

(** ["Even" if finger_count % 2 == 0 else "Odd"] *)
Definition parity (finger_count : Z) : string :=
  if finger_count mod 2 =? 0 then "Even"%string else "Odd"%string.

(** 1 for a comparison that holds, 0 otherwise. *)
Definition bit (b : bool) : Z := if b then 1 else 0.

(** Sample hands. Coordinates are multiples of 1/32, inside the frame. *)
Definition at32 (a b c : Z) : Landmark.t :=
  Landmark.mk (fdiv (to_float64 a) (to_float64 32))
              (fdiv (to_float64 b) (to_float64 32))
              (fdiv (to_float64 c) (to_float64 32)).

(** Every tip lies left of and above the joints before it. *)
Definition open_hand : NormalizedLandmarkList :=
  {| landmark := map (fun i => at32 (24 - i) (24 - i) 0) (map Z.of_nat (seq 0 21)) |}.

(** Every tip lies right of and below the joints before it. *)
Definition fist : NormalizedLandmarkList :=
  {| landmark := map (fun i => at32 i i 0) (map Z.of_nat (seq 0 21)) |}.

(** [open_hand] with every coordinate that is not compared replaced. *)
Definition moved_hand : NormalizedLandmarkList :=
  {| landmark :=
       map (fun i => at32 (if (i =? 3) || (i =? 4) then 24 - i else 7)
                          (if Z.even i && (6 <=? i) then 24 - i else 9)
                          i)
           (map Z.of_nat (seq 0 21)) |}.

(** *** The capture loop *)

(** [str(n)] for an integer. *)
Definition str_int (n : Z) : string :=
  if n <? 0 then ("-" ++ decimal (- n))%string else decimal n.

(** [f'Fingers: {finger_count} ({parity})'] *)
Definition overlay_text (finger_count : Z) : string :=
  ("Fingers: " ++ str_int finger_count ++ " (" ++ parity finger_count ++ ")")%string.

(** What is drawn on a frame: a text at a position, or the skeleton of a
    hand. *)
Inductive drawing : Type :=
  | PutText (text : string) (org : Z * Z)
  | Landmarks (hand : NormalizedLandmarkList).

(** What one turn of the loop gets from outside, for a frame that the
    camera delivered: the hands the detector finds in it ([None] when it
    reports none) and the number that [cv2.waitKey(1)] returns, -1 when no
    key was pressed. *)
Record tick : Type :=
  { multi_hand_landmarks : option (list NormalizedLandmarkList); key : Z }.

(** The body of [if result.multi_hand_landmarks: for hand_landmark in ...]:
    the drawings put on the frame. [None] and the empty list are both
    false. *)
Definition annotate (found : option (list NormalizedLandmarkList))
  : result (list drawing) :=
  match found with
  | None | Some [] => Ok []
  | Some hands =>
      for_each (fun img hand_landmark =>
          finger_count ← count_fingers hand_landmark;
          Ok (img ++ [PutText (overlay_text finger_count) (10, 50);
                      Landmarks hand_landmark]))
        hands []
  end.

(** [cv2.waitKey(1) & 0xFF == ord('q')] *)
Definition quit_key (k : Z) : bool := Z.land k 255 =? 113.

(** How the loop stands after the turns it was given: it left through
    [break] and released the camera and the windows, it waits for the next
    frame, or an exception ended it. *)
Inductive ending : Type :=
  | Released
  | Waiting
  | Failed (e : exn).

(** [while True: ...] over the turns that the camera, the detector and the
    keyboard supply, with the frames shown so far. *)
Fixpoint capture_loop (ticks : list tick) (shown : list (list drawing))
  : list (list drawing) * ending :=
  match ticks with
  | [] => (shown, Waiting)
  | t :: ticks' =>
      match annotate (multi_hand_landmarks t) with
      | Raise e => (shown, Failed e)
      | Ok img =>
          let shown := shown ++ [img] in
          if quit_key (key t) then (shown, Released)
          else capture_loop ticks' shown
      end
  end.

(** The frame shown in a turn whose drawing succeeds. *)
Definition frame_of (t : tick) : list drawing :=
  match annotate (multi_hand_landmarks t) with
  | Ok img => img
  | Raise _ => []
  end.

(** A turn that draws its frame and does not leave the loop. *)
Definition goes_on (t : tick) : Prop :=
  (exists img, annotate (multi_hand_landmarks t) = Ok img) /\ quit_key (key t) = false.


Lemma getitem_lookup {A} (l : list A) i a : l !! i = Some a -> getitem l i = Ok a.
Proof. unfold getitem. now intros ->. Qed.

(** The vector is determined by five comparisons. *)
Lemma fingers_of_lookup h l3 l4 l6 l8 l10 l12 l14 l16 l18 l20 :
  landmark h !! 3%nat = Some l3 -> landmark h !! 4%nat = Some l4 ->
  landmark h !! 6%nat = Some l6 -> landmark h !! 8%nat = Some l8 ->
  landmark h !! 10%nat = Some l10 -> landmark h !! 12%nat = Some l12 ->
  landmark h !! 14%nat = Some l14 -> landmark h !! 16%nat = Some l16 ->
  landmark h !! 18%nat = Some l18 -> landmark h !! 20%nat = Some l20 ->
  fingers_of h =
    Ok [bit (flt (Landmark.x l4) (Landmark.x l3));
        bit (flt (Landmark.y l8) (Landmark.y l6));
        bit (flt (Landmark.y l12) (Landmark.y l10));
        bit (flt (Landmark.y l16) (Landmark.y l14));
        bit (flt (Landmark.y l20) (Landmark.y l18))].
Proof.
  intros H3 H4 H6 H8 H10 H12 H14 H16 H18 H20.
  unfold fingers_of, range. cbn [getitem tip_ids lookup list_lookup mbind result_bind].
  cbn -[flt].
  rewrite !(getitem_lookup _ _ _ H3), !(getitem_lookup _ _ _ H4). cbn -[flt].
  rewrite !(getitem_lookup _ _ _ H6), !(getitem_lookup _ _ _ H8). cbn -[flt].
  rewrite !(getitem_lookup _ _ _ H10), !(getitem_lookup _ _ _ H12). cbn -[flt].
  rewrite !(getitem_lookup _ _ _ H14), !(getitem_lookup _ _ _ H16). cbn -[flt].
  rewrite !(getitem_lookup _ _ _ H18), !(getitem_lookup _ _ _ H20). cbn -[flt].
  repeat match goal with |- context [flt ?a ?b] => destruct (flt a b) end;
    reflexivity.
Qed.

Lemma bit_true_iff b : bit b = 1 <-> b = true.
Proof. destruct b; cbn; split; congruence. Qed.

Lemma bit_false_iff b : bit b = 0 <-> b = false.
Proof. destruct b; cbn; split; congruence. Qed.



(** C4: the thumb is extended exactly when landmark 4 lies left of landmark 3,
    each other finger exactly when its tip lies above the landmark two
    positions before it; the count is the sum of the five values and the
    label is "Even" for an even count, "Odd" otherwise. *)
Theorem count_fingers_classification
    (h : NormalizedLandmarkList) (l3 l4 l6 l8 l10 l12 l14 l16 l18 l20 : Landmark.t) :
  landmark h !! 3%nat = Some l3 -> landmark h !! 4%nat = Some l4 ->
  landmark h !! 6%nat = Some l6 -> landmark h !! 8%nat = Some l8 ->
  landmark h !! 10%nat = Some l10 -> landmark h !! 12%nat = Some l12 ->
  landmark h !! 14%nat = Some l14 -> landmark h !! 16%nat = Some l16 ->
  landmark h !! 18%nat = Some l18 -> landmark h !! 20%nat = Some l20 ->
  exists thumb index middle ring pinky : Z,
    fingers_of h = Ok [thumb; index; middle; ring; pinky] /\
    (thumb = 1 <-> flt (Landmark.x l4) (Landmark.x l3) = true) /\
    (thumb = 0 <-> flt (Landmark.x l4) (Landmark.x l3) = false) /\
    (index = 1 <-> flt (Landmark.y l8) (Landmark.y l6) = true) /\
    (index = 0 <-> flt (Landmark.y l8) (Landmark.y l6) = false) /\
    (middle = 1 <-> flt (Landmark.y l12) (Landmark.y l10) = true) /\
    (middle = 0 <-> flt (Landmark.y l12) (Landmark.y l10) = false) /\
    (ring = 1 <-> flt (Landmark.y l16) (Landmark.y l14) = true) /\
    (ring = 0 <-> flt (Landmark.y l16) (Landmark.y l14) = false) /\
    (pinky = 1 <-> flt (Landmark.y l20) (Landmark.y l18) = true) /\
    (pinky = 0 <-> flt (Landmark.y l20) (Landmark.y l18) = false) /\
    count_fingers h = Ok (thumb + index + middle + ring + pinky) /\
    (parity (thumb + index + middle + ring + pinky) = "Even"%string <->
       (thumb + index + middle + ring + pinky) mod 2 = 0) /\
    (parity (thumb + index + middle + ring + pinky) = "Odd"%string <->
       (thumb + index + middle + ring + pinky) mod 2 <> 0).
Proof.
  intros H3 H4 H6 H8 H10 H12 H14 H16 H18 H20.
  pose proof (fingers_of_lookup h _ _ _ _ _ _ _ _ _ _
                H3 H4 H6 H8 H10 H12 H14 H16 H18 H20) as Hf.
  do 5 eexists. split; [exact Hf|].
  repeat (split; [first [apply bit_true_iff | apply bit_false_iff]|]).
  split.
  { unfold count_fingers. rewrite Hf. cbn -[bit]. unfold sum. cbn -[bit].
    f_equal; lia. }
  unfold parity.
  destruct (Z.eqb_spec
    ((bit (flt (Landmark.x l4) (Landmark.x l3)) +
      bit (flt (Landmark.y l8) (Landmark.y l6)) +
      bit (flt (Landmark.y l12) (Landmark.y l10)) +
      bit (flt (Landmark.y l16) (Landmark.y l14)) +
      bit (flt (Landmark.y l20) (Landmark.y l18))) mod 2) 0) as [E|E];
    (split; split; intros; try congruence; try discriminate; try reflexivity).
Qed.

(** Destruct the pair of lookups at index [i] named by an agreement
    hypothesis; the two sides are both present or both absent. *)
Ltac agree_at H :=
  match type of H with
  | _ <$> (?l1 !! ?i) = _ <$> (?l2 !! ?i) =>
      let a := fresh "a" in let b := fresh "b" in
      destruct (l1 !! i) as [a|], (l2 !! i) as [b|];
      cbn in H; try discriminate H;
      [injection H as H; cbn -[flt]; try rewrite H | reflexivity]
  end.

(** C9: two hands that agree on the x coordinates of landmarks 3 and 4 and
    on the y coordinates of landmarks 6, 8, 10, 12, 14, 16, 18 and 20 get the
    same result from [count_fingers], whatever their other coordinates. *)
Theorem count_fingers_depends_on_ten (h1 h2 : NormalizedLandmarkList) :
  Landmark.x <$> landmark h1 !! 3%nat = Landmark.x <$> landmark h2 !! 3%nat ->
  Landmark.x <$> landmark h1 !! 4%nat = Landmark.x <$> landmark h2 !! 4%nat ->
  Landmark.y <$> landmark h1 !! 6%nat = Landmark.y <$> landmark h2 !! 6%nat ->
  Landmark.y <$> landmark h1 !! 8%nat = Landmark.y <$> landmark h2 !! 8%nat ->
  Landmark.y <$> landmark h1 !! 10%nat = Landmark.y <$> landmark h2 !! 10%nat ->
  Landmark.y <$> landmark h1 !! 12%nat = Landmark.y <$> landmark h2 !! 12%nat ->
  Landmark.y <$> landmark h1 !! 14%nat = Landmark.y <$> landmark h2 !! 14%nat ->
  Landmark.y <$> landmark h1 !! 16%nat = Landmark.y <$> landmark h2 !! 16%nat ->
  Landmark.y <$> landmark h1 !! 18%nat = Landmark.y <$> landmark h2 !! 18%nat ->
  Landmark.y <$> landmark h1 !! 20%nat = Landmark.y <$> landmark h2 !! 20%nat ->
  count_fingers h1 = count_fingers h2.
Proof.
  intros H3 H4 H6 H8 H10 H12 H14 H16 H18 H20.
  unfold count_fingers. f_equal.
  unfold fingers_of, range, getitem.
  cbn [tip_ids lookup list_lookup mbind result_bind seq Nat.sub for_each].
  agree_at H4. agree_at H3.
  match goal with |- context [flt ?a ?b] => destruct (flt a b) end.
  all: cbn -[flt] in *.
  all: agree_at H8; agree_at H6;
       match goal with |- context [flt ?a ?b] => destruct (flt a b) end;
       cbn -[flt] in *.
  all: agree_at H12; agree_at H10;
       match goal with |- context [flt ?a ?b] => destruct (flt a b) end;
       cbn -[flt] in *.
  all: agree_at H16; agree_at H14;
       match goal with |- context [flt ?a ?b] => destruct (flt a b) end;
       cbn -[flt] in *.
  all: agree_at H20; agree_at H18;
       match goal with |- context [flt ?a ?b] => destruct (flt a b) end;
       reflexivity.
Qed.

Example count_fingers_open_hand :
  count_fingers open_hand = Ok 5 /\ parity 5 = "Odd"%string.
Proof. split; reflexivity. Qed.

Example count_fingers_fist :
  count_fingers fist = Ok 0 /\ parity 0 = "Even"%string.
Proof. split; reflexivity. Qed.

(** A hand that is too short: the first index that is missing raises. *)
Example count_fingers_short :
  count_fingers {| landmark := firstn 20 (landmark open_hand) |} = Raise IndexError.
Proof. reflexivity. Qed.


Lemma count_fingers_classification_witness :
  exists thumb index middle ring pinky : Z,
    fingers_of fist = Ok [thumb; index; middle; ring; pinky] /\
    (thumb = 0 <-> flt (Landmark.x (at32 4 4 0)) (Landmark.x (at32 3 3 0)) = false) /\
    count_fingers fist = Ok (thumb + index + middle + ring + pinky).
Proof.
  destruct (count_fingers_classification fist
              (at32 3 3 0) (at32 4 4 0) (at32 6 6 0) (at32 8 8 0) (at32 10 10 0)
              (at32 12 12 0) (at32 14 14 0) (at32 16 16 0) (at32 18 18 0)
              (at32 20 20 0))
    as (t & i & m & r & p & Hf & _ & Ht & _ & _ & _ & _ & _ & _ & _ & _ & Hc & _);
    try reflexivity.
  exists t, i, m, r, p. split; [exact Hf|]. split; [exact Ht|exact Hc].
Defined.

Lemma count_fingers_depends_on_ten_witness :
  landmark open_hand <> landmark moved_hand /\
  count_fingers open_hand = count_fingers moved_hand.
Proof.
  split; [discriminate|].
  apply (count_fingers_depends_on_ten open_hand moved_hand); reflexivity.
Defined.

(** *** More on count_fingers *)

Lemma hand_lookups_ge h :
  (21 <= length (landmark h))%nat ->
  exists l3 l4 l6 l8 l10 l12 l14 l16 l18 l20,
    landmark h !! 3%nat = Some l3 /\ landmark h !! 4%nat = Some l4 /\
    landmark h !! 6%nat = Some l6 /\ landmark h !! 8%nat = Some l8 /\
    landmark h !! 10%nat = Some l10 /\ landmark h !! 12%nat = Some l12 /\
    landmark h !! 14%nat = Some l14 /\ landmark h !! 16%nat = Some l16 /\
    landmark h !! 18%nat = Some l18 /\ landmark h !! 20%nat = Some l20.
Proof.
  destruct h as [lms]; cbn. intros Hlen.
  do 21 (destruct lms as [|? lms]; [cbn in Hlen; lia|]).
  cbn. repeat eexists.
Qed.

(** A hand of at least 21 landmarks has a count. *)
Lemma count_fingers_long (h : NormalizedLandmarkList) :
  (21 <= length (landmark h))%nat ->
  exists c, count_fingers h = Ok c /\ 0 <= c <= 5.
Proof.
  intros Hlen.
  destruct (hand_lookups_ge h Hlen)
    as (l3 & l4 & l6 & l8 & l10 & l12 & l14 & l16 & l18 & l20 &
        H3 & H4 & H6 & H8 & H10 & H12 & H14 & H16 & H18 & H20).
  unfold count_fingers.
  rewrite (fingers_of_lookup h _ _ _ _ _ _ _ _ _ _
             H3 H4 H6 H8 H10 H12 H14 H16 H18 H20).
  eexists. split; [reflexivity|].
  unfold sum; cbn -[bit flt].
  repeat match goal with |- context [flt ?a ?b] => destruct (flt a b) end;
    cbn; lia.
Qed.

(** A shorter hand has none: the landmark of the little finger's tip, at
    the latest, is missing. *)
Lemma count_fingers_short_hand (h : NormalizedLandmarkList) :
  (length (landmark h) < 21)%nat -> count_fingers h = Raise IndexError.
Proof.
  intros Hlen.
  assert (H20 : landmark h !! 20%nat = None) by (apply lookup_ge_None; lia).
  unfold count_fingers, fingers_of, range, getitem.
  cbn [tip_ids lookup list_lookup mbind result_bind seq Nat.sub for_each].
  cbn -[flt]. rewrite ?H20.
  repeat first
    [ reflexivity
    | match goal with
      | |- context [landmark h !! ?i] =>
          destruct (landmark h !! i); cbn -[flt]
      | |- context [flt ?a ?b] => destruct (flt a b); cbn -[flt]
      end ].
Qed.

(** X1: [count_fingers] returns a count exactly for the hands of at least
    21 landmarks, whatever follows the 21st; a shorter hand raises
    [IndexError]. *)
Theorem count_fingers_needs_21 (h : NormalizedLandmarkList) :
  ((21 <= length (landmark h))%nat ->
     exists c, count_fingers h = Ok c /\ 0 <= c <= 5) /\
  ((length (landmark h) < 21)%nat -> count_fingers h = Raise IndexError).
Proof.
  split; [apply count_fingers_long | apply count_fingers_short_hand].
Qed.

Lemma count_fingers_needs_21_witness :
  (exists c, count_fingers open_hand = Ok c /\ 0 <= c <= 5) /\
  count_fingers {| landmark := take 20 (landmark open_hand) |} = Raise IndexError.
Proof.
  split.
  - apply (proj1 (count_fingers_needs_21 open_hand)). cbn. lia.
  - apply (proj2 (count_fingers_needs_21 {| landmark := take 20 (landmark open_hand) |})).
    cbn. lia.
Defined.

(** No float is below itself. *)
Lemma flt_irrefl (a : float) : flt a a = false.
Proof.
  unfold flt, SFltb.
  destruct a as [s|s| |s m e]; cbn; try (destruct s; reflexivity); try reflexivity.
  destruct s; rewrite Z.compare_refl, Pos.compare_cont_refl; reflexivity.
Qed.

(** X2: the comparisons are strict: a finger whose tip has the coordinate of
    the joint it is compared with is not counted. A hand on which all five
    pairs coincide, such as 21 landmarks at one point, has count 0. *)
Theorem count_fingers_coinciding
    (h : NormalizedLandmarkList) (l3 l4 l6 l8 l10 l12 l14 l16 l18 l20 : Landmark.t) :
  landmark h !! 3%nat = Some l3 -> landmark h !! 4%nat = Some l4 ->
  landmark h !! 6%nat = Some l6 -> landmark h !! 8%nat = Some l8 ->
  landmark h !! 10%nat = Some l10 -> landmark h !! 12%nat = Some l12 ->
  landmark h !! 14%nat = Some l14 -> landmark h !! 16%nat = Some l16 ->
  landmark h !! 18%nat = Some l18 -> landmark h !! 20%nat = Some l20 ->
  Landmark.x l4 = Landmark.x l3 ->
  Landmark.y l8 = Landmark.y l6 -> Landmark.y l12 = Landmark.y l10 ->
  Landmark.y l16 = Landmark.y l14 -> Landmark.y l20 = Landmark.y l18 ->
  fingers_of h = Ok [0; 0; 0; 0; 0] /\ count_fingers h = Ok 0.
Proof.
  intros H3 H4 H6 H8 H10 H12 H14 H16 H18 H20 E1 E2 E3 E4 E5.
  unfold count_fingers.
  rewrite (fingers_of_lookup h _ _ _ _ _ _ _ _ _ _
             H3 H4 H6 H8 H10 H12 H14 H16 H18 H20).
  rewrite E1, E2, E3, E4, E5, !flt_irrefl. split; reflexivity.
Qed.

Lemma count_fingers_coinciding_witness :
  count_fingers {| landmark := replicate 21 (at32 16 16 0) |} = Ok 0.
Proof.
  apply (count_fingers_coinciding {| landmark := replicate 21 (at32 16 16 0) |}
           (at32 16 16 0) (at32 16 16 0) (at32 16 16 0) (at32 16 16 0)
           (at32 16 16 0) (at32 16 16 0) (at32 16 16 0) (at32 16 16 0)
           (at32 16 16 0) (at32 16 16 0));
    reflexivity.
Defined.

(** *** The capture loop *)

Lemma count_fingers_cases (h : NormalizedLandmarkList) :
  (exists c, count_fingers h = Ok c /\ 0 <= c <= 5) \/
  count_fingers h = Raise IndexError.
Proof.
  destruct (Nat.le_gt_cases 21 (length (landmark h))) as [Hlen|Hlen].
  - left. apply count_fingers_long, Hlen.
  - right. apply count_fingers_short_hand, Hlen.
Qed.

(** The six texts that can be put on a frame. *)
Lemma overlay_text_range (c : Z) :
  0 <= c <= 5 ->
  In (overlay_text c)
     ["Fingers: 0 (Even)"; "Fingers: 1 (Odd)"; "Fingers: 2 (Even)";
      "Fingers: 3 (Odd)"; "Fingers: 4 (Even)"; "Fingers: 5 (Odd)"]%string.
Proof.
  intros Hc.
  assert (c = 0 \/ c = 1 \/ c = 2 \/ c = 3 \/ c = 4 \/ c = 5)
    as [->|[->|[->|[->|[->| ->]]]]] by lia;
    cbn; tauto.
Qed.

(** What is drawn for one hand whose count is [c]: the text, then the
    skeleton. *)
Lemma annotate_loop (hands : list NormalizedLandmarkList) (img : list drawing) :
  Forall (fun h => (21 <= length (landmark h))%nat) hands ->
  exists counts,
    Forall2 (fun h c => count_fingers h = Ok c /\ 0 <= c <= 5) hands counts /\
    for_each (fun img hand_landmark =>
        finger_count ← count_fingers hand_landmark;
        Ok (img ++ [PutText (overlay_text finger_count) (10, 50);
                    Landmarks hand_landmark]))
      hands img
    = Ok (img ++ concat (zip_with (fun h c => [PutText (overlay_text c) (10, 50);
                                               Landmarks h]) hands counts)).
Proof.
  intros Hall. revert img.
  induction Hall as [|h hands Hh Hall IH]; intros img.
  - exists []. split; [constructor|]. cbn. rewrite app_nil_r. reflexivity.
  - destruct (count_fingers_long h Hh) as (c & Hc & Hr).
    destruct (IH (img ++ [PutText (overlay_text c) (10, 50); Landmarks h]))
      as (counts & Hcounts & Hd).
    exists (c :: counts). split; [constructor; [split; assumption | exact Hcounts]|].
    cbn [for_each]. rewrite Hc. cbn [mbind result_bind].
    rewrite Hd, <- app_assoc. reflexivity.
Qed.

(** X3: on a frame with hands of 21 landmarks or more, the drawings are, hand
    by hand in the order of the detector, the text of the hand's count
    followed by the hand's skeleton, and nothing else: one text and one
    skeleton per hand. Every text is one of the six and is put at the same
    place, (10, 50). With no hand nothing is drawn. *)
Theorem annotate_drawings (found : option (list NormalizedLandmarkList)) :
  Forall (fun h => (21 <= length (landmark h))%nat) (default [] found) ->
  exists counts,
    Forall2 (fun h c => count_fingers h = Ok c /\ 0 <= c <= 5)
            (default [] found) counts /\
    annotate found
    = Ok (concat (zip_with (fun h c => [PutText (overlay_text c) (10, 50);
                                        Landmarks h])
                           (default [] found) counts)) /\
    Forall (fun c =>
              In (overlay_text c)
                 ["Fingers: 0 (Even)"; "Fingers: 1 (Odd)"; "Fingers: 2 (Even)";
                  "Fingers: 3 (Odd)"; "Fingers: 4 (Even)"; "Fingers: 5 (Odd)"]%string)
           counts.
Proof.
  intros Hall.
  assert (Htexts : forall hands counts,
            Forall2 (fun h c => count_fingers h = Ok c /\ 0 <= c <= 5) hands counts ->
            Forall (fun c =>
                      In (overlay_text c)
                         ["Fingers: 0 (Even)"; "Fingers: 1 (Odd)"; "Fingers: 2 (Even)";
                          "Fingers: 3 (Odd)"; "Fingers: 4 (Even)"; "Fingers: 5 (Odd)"]%string)
                   counts).
  { intros hands counts H. induction H as [|h c hands counts [_ Hr] _ IH];
      [apply Forall_nil_2 | apply Forall_cons_2; [apply overlay_text_range, Hr | exact IH]]. }
  destruct found as [[|h hands]|]; cbn [default] in *;
    try (exists []; split; [constructor|]; split; [reflexivity | apply Forall_nil_2]).
  destruct (annotate_loop (h :: hands) [] Hall) as (counts & Hcounts & Hd).
  exists counts. split; [exact Hcounts|]. split; [exact Hd|].
  exact (Htexts _ _ Hcounts).
Qed.

Lemma annotate_drawings_witness :
  exists counts,
    Forall2 (fun h c => count_fingers h = Ok c /\ 0 <= c <= 5) [open_hand; fist] counts /\
    annotate (Some [open_hand; fist])
    = Ok (concat (zip_with (fun h c => [PutText (overlay_text c) (10, 50);
                                        Landmarks h])
                           [open_hand; fist] counts)).
Proof.
  destruct (annotate_drawings (Some [open_hand; fist])) as (counts & Hc & Ha & _).
  - repeat (apply Forall_cons_2; [cbn; lia|]). apply Forall_nil_2.
  - exists counts. exact (conj Hc Ha).
Defined.

(** The drawings of two hands, written out. *)
Example annotate_two_hands :
  annotate (Some [open_hand; fist])
  = Ok [PutText "Fingers: 5 (Odd)" (10, 50); Landmarks open_hand;
        PutText "Fingers: 0 (Even)" (10, 50); Landmarks fist].
Proof. vm_compute. reflexivity. Qed.

(** X4: one hand that is too short makes the drawing of the frame fail,
    whatever the other hands are: no frame is drawn for that turn. *)
Theorem annotate_short_hand (hands : list NormalizedLandmarkList) :
  Exists (fun h => (length (landmark h) < 21)%nat) hands ->
  annotate (Some hands) = Raise IndexError.
Proof.
  intros Hex.
  assert (Hloop : forall img,
            for_each (fun img hand_landmark =>
                finger_count ← count_fingers hand_landmark;
                Ok (img ++ [PutText (overlay_text finger_count) (10, 50);
                            Landmarks hand_landmark]))
              hands img = Raise IndexError).
  { induction Hex as [h hands Hh|h hands Hex IH]; intros img; cbn [for_each].
    - rewrite (count_fingers_short_hand h Hh). reflexivity.
    - destruct (count_fingers_cases h) as [(c & Hc & _)|Hc]; rewrite Hc;
        cbn [mbind result_bind]; [apply IH | reflexivity]. }
  destruct hands as [|h hands]; [inversion Hex|]. apply Hloop.
Qed.

Lemma annotate_short_hand_witness :
  annotate (Some [open_hand; {| landmark := take 20 (landmark fist) |}])
  = Raise IndexError.
Proof.
  apply (annotate_short_hand [open_hand; {| landmark := take 20 (landmark fist) |}]).
  apply Exists_cons_tl, Exists_cons_hd. cbn. lia.
Defined.

Lemma land_255 (a : Z) : Z.land a 255 = a mod 256.
Proof. apply (Z.land_ones a 8). lia. Qed.

Lemma quit_key_mod (k : Z) : quit_key k = true <-> k mod 256 = 113.
Proof. unfold quit_key. rewrite land_255. apply Z.eqb_eq. Qed.

(** X5: the test for leaving the loop reads the low byte of the key code
    only: it holds exactly for the codes that are 113 modulo 256, so codes
    that differ by a multiple of 256 are treated alike, and the -1 that
    stands for no key does not leave the loop. *)
Theorem quit_key_low_byte (k : Z) :
  (quit_key k = true <-> k mod 256 = 113) /\
  (forall j, quit_key (k + 256 * j) = quit_key k) /\
  quit_key (-1) = false.
Proof.
  split; [apply quit_key_mod|]. split; [|reflexivity].
  intros j. unfold quit_key. rewrite !land_255.
  replace (k + 256 * j) with (k + j * 256) by lia.
  rewrite Z.mod_add by lia. reflexivity.
Qed.

(** As long as the turns go on, every frame is shown and the loop waits
    for the next one. *)
Lemma capture_loop_goes_on (ticks : list tick) (shown : list (list drawing)) :
  Forall goes_on ticks ->
  forall rest,
    capture_loop (ticks ++ rest) shown
    = capture_loop rest (shown ++ map frame_of ticks).
Proof.
  intros Hall. revert shown.
  induction Hall as [|t ticks [(img & Ha) Hq] Hall IH]; intros shown rest.
  - cbn. rewrite app_nil_r. reflexivity.
  - cbn [app capture_loop map]. unfold frame_of at 1. rewrite Ha, Hq.
    rewrite IH, <- app_assoc. reflexivity.
Qed.

(** X6: the loop ends at the first turn whose key is the quit key: the frame
    of that turn is still shown, the camera and the windows are released, and
    nothing that comes later is read. *)
Theorem capture_loop_quit (before after : list tick) (t : tick) (img : list drawing) :
  Forall goes_on before ->
  annotate (multi_hand_landmarks t) = Ok img ->
  key t mod 256 = 113 ->
  capture_loop (before ++ t :: after) []
  = (map frame_of before ++ [img], Released).
Proof.
  intros Hall Ha Hk.
  rewrite (capture_loop_goes_on before [] Hall). cbn [app capture_loop].
  rewrite Ha. apply quit_key_mod in Hk. rewrite Hk.
  reflexivity.
Qed.

Lemma capture_loop_quit_witness :
  capture_loop
    [ {| multi_hand_landmarks := Some [open_hand]; key := -1 |};
      {| multi_hand_landmarks := None; key := 113 + 256 |};
      {| multi_hand_landmarks := Some [fist]; key := 113 |} ] []
  = ([ [PutText "Fingers: 5 (Odd)" (10, 50); Landmarks open_hand]; [] ], Released).
Proof.
  apply (capture_loop_quit
           [ {| multi_hand_landmarks := Some [open_hand]; key := -1 |} ]
           [ {| multi_hand_landmarks := Some [fist]; key := 113 |} ]
           {| multi_hand_landmarks := None; key := 113 + 256 |} []).
  - repeat constructor. eexists; reflexivity.
  - reflexivity.
  - reflexivity.
Defined.

(** X7: an exception in a turn ends the loop at once: the frame of that turn
    is not shown, and the camera and the windows are not released. Without
    the quit key and without an exception the loop does not end. *)
Theorem capture_loop_failure (before after : list tick) (t : tick) (e : exn) :
  Forall goes_on before ->
  annotate (multi_hand_landmarks t) = Raise e ->
  capture_loop (before ++ t :: after) [] = (map frame_of before, Failed e) /\
  capture_loop before [] = (map frame_of before, Waiting).
Proof.
  intros Hall Ha. split.
  - rewrite (capture_loop_goes_on before [] Hall). cbn [app capture_loop].
    rewrite Ha. reflexivity.
  - rewrite <- (app_nil_r before) at 1.
    rewrite (capture_loop_goes_on before [] Hall). reflexivity.
Qed.

Lemma capture_loop_failure_witness :
  capture_loop
    [ {| multi_hand_landmarks := Some [open_hand]; key := -1 |};
      {| multi_hand_landmarks := Some [{| landmark := [] |}]; key := 113 |} ] []
  = ([ [PutText "Fingers: 5 (Odd)" (10, 50); Landmarks open_hand] ],
     Failed IndexError).
Proof.
  apply (capture_loop_failure
           [ {| multi_hand_landmarks := Some [open_hand]; key := -1 |} ] []
           {| multi_hand_landmarks := Some [{| landmark := [] |}]; key := 113 |}
           IndexError).
  - repeat constructor. eexists; reflexivity.
  - reflexivity.
Defined.

End Aifinger.

(** ** src/streamlit_app.py *)

Module StreamlitApp.
Import Py.

(** *** format_bytes *)

Definition units : list string := ["B"; "KiB"; "MiB"; "GiB"; "TiB"]%string.

(** The [for unit in ...] loop of [format_bytes] over the units that remain;
    [None] is what the function returns when the loop ends without a
    [return]. *)
Fixpoint format_bytes_loop (remaining : list string) (num_bytes : num)
  : result (option string) :=
  match remaining with
  | [] => Ok None
  | unit :: remaining' =>
      if lt_1024 num_bytes || String.eqb unit "TiB" then
        text ← format_2f num_bytes;
        Ok (Some (text ++ " " ++ unit)%string)
      else
        num_bytes' ← truediv_1024 num_bytes;
        format_bytes_loop remaining' num_bytes'
  end.

Definition format_bytes (num_bytes : Z) : result (option string) :=
  format_bytes_loop units (Int num_bytes).

(** [num_bytes] after [k] executions of [num_bytes /= 1024]. *)
Fixpoint divided (num_bytes : num) (k : nat) : result num :=
  match k with
  | O => Ok num_bytes
  | S k' => num_bytes' ← truediv_1024 num_bytes; divided num_bytes' k'
  end.

(** *** Cells

    One cell of a column; [NA] is a missing value. *)
Inductive cell : Type :=
  | NA
  | Str (s : string)
  | Boolean (b : bool)
  | Integer (n : Z)
  | Real (f : float).

#[global] Instance float_eq_dec : EqDecision float.
Proof.
  intros x y. unfold Decision.
  decide equality; try apply bool_eq_dec; try apply Pos.eq_dec; apply Z.eq_dec.
Defined.
#[global] Instance cell_eq_dec : EqDecision cell.
Proof. solve_decision. Defined.

(** *** The page and the script

    A run of the script renders elements on the page, in order, and ends in
    one of three ways: it runs on with a value, it is halted by [st.stop()],
    or an exception leaves it uncaught. *)

(** What [st.dataframe] is given in the sections on statistics and top
    values: a table of [describe], of which only the rows are kept (one per
    column described, named after it; the statistics are those of pandas),
    or the table of the values of a column [column_name] beside their
    counts. *)
Inductive table : Type :=
  | Described (rows : list string)
  | Counts (column_name : string) (rows : list (cell * nat)).

Inductive element : Type :=
  | Title (text : string)
  | Caption (text : string)
  | FileUploader (label : string)
  | Info (text : string)
  | Error (text : string)
  | Subheader (text : string)
  | Markdown (text : string)
  | Dataframe (data : table)
  | InColumn (slot : nat) (el : element).

Inductive outcome (A : Type) : Type :=
  | Continue (a : A)
  | Stopped
  | Uncaught (e : exn).
Arguments Continue {A} a.
Arguments Stopped {A}.
Arguments Uncaught {A} e.

Definition script (A : Type) : Type := list element -> list element * outcome A.

#[global] Instance script_ret : MRet script := fun A a page => (page, Continue a).
#[global] Instance script_bind : MBind script := fun A B f m page =>
  match m page with
  | (page', Continue a) => f a page'
  | (page', Stopped) => (page', Stopped)
  | (page', Uncaught e) => (page', Uncaught e)
  end.

Definition render (el : element) : script () := fun page => (page ++ [el], Continue ()).
Definition st_stop {A : Type} : script A := fun page => (page, Stopped).
Definition raise {A : Type} (e : exn) : script A := fun page => (page, Uncaught e).

(** A computation inside the script: its exception, if any, is handled by
    nobody. *)
Definition lift {A : Type} (r : result A) : script A :=
  match r with
  | Ok a => mret a
  | Raise e => raise e
  end.

(** [for v in l: body(v)] in the script. *)
Fixpoint each {A : Type} (body : A -> script ()) (l : list A) : script () :=
  match l with
  | [] => mret ()
  | v :: l' => body v;; each body l'
  end.

(** The elements a run leaves on a page that was empty, and how it ends. *)
Definition run {A : Type} (s : script A) : list element * outcome A := s [].

(** *** The dataset loader *)

(** [encoding_errors]: the default is strict decoding. *)
Inductive encoding_errors : Type := Strict | Ignore.

(** The uploaded file: a byte stream with a read position. *)
Record UploadedFile : Type := { content : list Byte.byte; position : nat }.

Definition seek (f : UploadedFile) (offset : nat) : UploadedFile :=
  {| content := content f; position := offset |}.

Section Loader.

Context {DataFrame : Type}.

(** [pd.read_csv] on the bytes that remain in the stream: the dataset or
    the exception, and the number of bytes consumed. *)
Variable parse : encoding_errors -> list Byte.byte -> result DataFrame * nat.

(** [str(exc)] *)
Variable str : exn -> string.

(** Everything the script does with the dataset once it is loaded. *)
Variable summary : DataFrame -> script ().

Definition read_csv (f : UploadedFile) (errors : encoding_errors)
  : result DataFrame * UploadedFile :=
  let '(r, used) := parse errors (drop (position f) (content f)) in
  (r, {| content := content f; position := position f + used |}).

(** The [try] statement of the script. An exception raised by the first
    [read_csv] is matched against the two handlers in order; an exception
    raised inside the first handler is matched against none. *)
Definition load (uploaded_file : UploadedFile) : script DataFrame :=
  match read_csv uploaded_file Strict with
  | (Ok df, _) => mret df
  | (Raise exc, uploaded_file) =>
      if is_UnicodeDecodeError exc then
        (* Fallback for non-UTF encodings *)
        let uploaded_file := seek uploaded_file 0 in
        match read_csv uploaded_file Ignore with
        | (Ok df, _) => mret df
        | (Raise exc', _) => raise exc'
        end
      else
        render (Error ("Could not read the CSV: " ++ str exc));;
        st_stop
  end.

Definition main (uploaded_file : option UploadedFile) : script () :=
  render (Title "CSV Summary Explorer");;
  render (Caption
    "Upload a CSV file to see quick summary statistics and data quality info.");;
  render (FileUploader "Upload a CSV file");;
  match uploaded_file with
  | None => render (Info "Upload a CSV to get started.")
  | Some uploaded_file => df ← load uploaded_file; summary df
  end.

(** The page when the loader is reached. *)
Definition header : list element :=
  [Title "CSV Summary Explorer";
   Caption "Upload a CSV file to see quick summary statistics and data quality info.";
   FileUploader "Upload a CSV file"].

End Loader.

(** A reader to try the loader on. Decoding is strict about the bytes that
    no UTF-8 text contains (C0, C1, F5 to FF) and drops them when errors are
    ignored; a stream that decodes to no text at all has no columns to
    parse, any other text is taken as the dataset. *)
Definition never_in_utf8 (b : Byte.byte) : bool :=
  let n := Byte.to_N b in
  ((n =? 192) || (n =? 193) || (245 <=? n))%N.

Definition sample_parse (errors : encoding_errors) (stream : list Byte.byte)
  : result (list Byte.byte) * nat :=
  let text :=
    match errors with
    | Strict => if existsb never_in_utf8 stream then Raise UnicodeDecodeError else Ok stream
    | Ignore => Ok (List.filter (fun b => negb (never_in_utf8 b)) stream)
    end in
  (text ≫= (fun t => match t with [] => Raise EmptyDataError | _ => Ok t end),
   length stream).

Definition sample_str (e : exn) : string :=
  match e with
  | EmptyDataError => "No columns to parse from file"
  | _ => "error"
  end.

Definition sample_summary (df : list Byte.byte) : script () :=
  render (Subheader "Overview").

(** *** The preview slider *)

(** The arguments of [st.slider]. *)
Record slider : Type := { min_value : Z; max_value : Z; value : Z }.

(** [st.slider("Rows to preview", min_value=5,
      max_value=min(1000, max(5, len(df))), value=min(50, len(df)))] *)
Definition rows_to_preview (len_df : Z) : slider :=
  {| min_value := 5;
     max_value := Z.min 1000 (Z.max 5 len_df);
     value := Z.min 50 len_df |}.

Definition within (s : slider) (v : Z) : bool :=
  (min_value s <=? v) && (v <=? max_value s).

(** The bounds the widget works with. The script hands its three arguments
    over as they are; the widget orders the two bounds and then moves them
    out, where needed, until they hold the default. *)
Definition widened (s : slider) : slider :=
  let min_value' := Z.min (min_value s) (max_value s) in
  let max_value' := Z.max min_value' (max_value s) in
  {| min_value := Z.min (value s) min_value';
     max_value := Z.max (value s) max_value';
     value := value s |}.

(** What [st.slider] does: it refuses bounds that are equal once they are
    widened; otherwise it returns the position the user chose between the
    widened bounds, or the default while the user has not moved it. *)
Definition slider_value (s : slider) (chosen : option Z) : result Z :=
  let w := widened s in
  if min_value w =? max_value w then Raise StreamlitInvalidMinMaxError
  else
    match chosen with
    | Some v => if within w v then Ok v else Ok (value s)
    | None => Ok (value s)
    end.

(** [rows_to_show = st.slider(...)] *)
Definition rows_to_show (len_df : Z) (chosen : option Z) : result Z :=
  slider_value (rows_to_preview len_df) chosen.

(** *** Data frames *)

Inductive dtype : Type := int64 | float64 | object | category | bool_ | datetime64.

(** [str(dtype)] *)
Definition dtype_name (d : dtype) : string :=
  match d with
  | int64 => "int64" | float64 => "float64" | object => "object"
  | category => "category" | bool_ => "bool" | datetime64 => "datetime64[ns]"
  end.

(** A column: its name, its type and its cells; a categorical column also
    has its declared categories, whether they occur or not ([[]] for the
    other types). *)
Record column : Type :=
  { name : string; col_dtype : dtype; cells : list cell; categories : list cell }.

(** A frame: its columns, in order, and the length of its index. *)
Record DataFrame : Type := { columns : list column; len : Z }.

(** *** Sorting *)

(** A stable sort by insertion. [before x y] holds when [x] may stand
    before [y]; an element is put in front of the first one that it may
    stand before, so equal elements keep their order. *)
Fixpoint insert_sorted {A : Type} (before : A -> A -> bool) (x : A) (l : list A)
  : list A :=
  match l with
  | [] => [x]
  | y :: l' => if before x y then x :: y :: l' else y :: insert_sorted before x l'
  end.

(** [x] may stand before [y]. *)
Definition ordered {A : Type} (before : A -> A -> bool) (x y : A) : Prop :=
  before x y = true.

Definition stable_sort {A : Type} (before : A -> A -> bool) (l : list A) : list A :=
  fold_right (fun x sorted => insert_sorted before x sorted) [] l.

(** *** Schema and missing values *)

(** [df.isna().sum()]: the number of missing cells of each column. *)
Definition isna (c : cell) : bool := if decide (c = NA) then true else false.

Definition missing_counts (df : DataFrame) : list Z :=
  map (fun c => Z.of_nat (length (List.filter isna (cells c)))) (columns df).

(** [.fillna(0)] on a float *)
Definition fillna0 (f : float) : float :=
  match f with S754_nan => S754_zero false | _ => f end.

(** [(missing_counts / len(df)).fillna(0) * 100 if len(df) else missing_counts * 0]:
    floats when there are rows, integers when there are none. *)
Definition missing_pct (df : DataFrame) : list num :=
  if len df =? 0 then map (fun c => Int (c * 0)) (missing_counts df)
  else map (fun c => Float (fmul (fillna0 (fdiv (to_float64 c) (to_float64 (len df))))
                                 (to_float64 100)))
           (missing_counts df).

(** [numpy.rint]: the nearest integer, ties to even, as a float. *)
Definition rint (f : float) : float :=
  match f with
  | S754_finite s m e =>
      if 0 <=? e then f
      else
        let n := round_half_even (Zpos m) (2 ^ (- e)) in
        if n =? 0 then S754_zero s
        else binary_normalize prec emax (if s then - n else n) 0 s
  | _ => f
  end.

(** [.round(2)]: integers are kept; a float is multiplied by 100, rounded to
    an integer and divided by 100. *)
Definition round2 (v : num) : num :=
  match v with
  | Int n => Int n
  | Float f => Float (fdiv (rint (fmul f (to_float64 100))) (to_float64 100))
  end.

(** A row of [schema_df]. *)
Record schema_row : Type :=
  { column_ : string; dtype_ : string; missing : Z; missing_pct_ : num }.

(** The row of the column at one position, from the four arrays. *)
Definition schema_row_of (c : column) (count : Z) (pct : num) : schema_row :=
  {| column_ := name c; dtype_ := dtype_name (col_dtype c);
     missing := count; missing_pct_ := round2 pct |}.

Definition schema_df (df : DataFrame) : list schema_row :=
  map (fun '(c, count, pct) => schema_row_of c count pct)
      (zip (zip (columns df) (missing_counts df)) (missing_pct df)).

(** Comparison of two numbers of a column; [None] when one is not a
    number. *)
Definition num_compare (a b : num) : option comparison :=
  match a, b with
  | Int x, Int y => Some (x ?= y)
  | Int x, Float g => SFcompare (to_float64 x) g
  | Float f, Int y => SFcompare f (to_float64 y)
  | Float f, Float g => SFcompare f g
  end.

Definition is_nan (a : num) : bool :=
  match a with Float S754_nan => true | _ => false end.

(** The place of [a] relative to [b] in a descending column: [Lt] when [a]
    comes first. Values that are not numbers come last. *)
Definition descending (a b : num) : comparison :=
  match is_nan a, is_nan b with
  | true, true => Eq
  | true, false => Gt
  | false, true => Lt
  | false, false =>
      match num_compare a b with
      | Some c => CompOpp c
      | None => Eq
      end
  end.

(** [sort_values(["missing_%", "column"], ascending=[False, True])]: the
    order of two rows. *)
Definition row_before (r1 r2 : schema_row) : bool :=
  match descending (missing_pct_ r1) (missing_pct_ r2) with
  | Lt => true
  | Gt => false
  | Eq => String.leb (column_ r1) (column_ r2)
  end.

(** The table that is displayed. *)
Definition schema_report (df : DataFrame) : list schema_row :=
  stable_sort row_before (schema_df df).

(** *** Top values *)

(** [select_dtypes(include=["object", "category", "bool"])] *)
Definition is_categorical (d : dtype) : bool :=
  match d with object | category | bool_ => true | _ => false end.

Definition cat_cols (df : DataFrame) : list column :=
  List.filter (fun c => is_categorical (col_dtype c)) (columns df).

(** The values of a column without repetition, in the order in which they
    first occur. *)
Fixpoint distinct (l : list cell) : list cell :=
  match l with
  | [] => []
  | c :: l' => c :: List.filter (fun d => if decide (d = c) then false else true) (distinct l')
  end.

Definition occurrences (v : cell) (l : list cell) : nat :=
  length (List.filter (fun d => if decide (d = v) then true else false) l).

(** The order of [value_counts]: the greater count first. *)
Definition by_count (a b : cell * nat) : bool := (snd b <=? snd a)%nat.

(** [value_counts(dropna=False)] on cells [l] with declared categories
    [cats]: every value, the missing one too, with the number of its
    occurrences, the most frequent first. *)
Definition value_counts (l cats : list cell) : list (cell * nat) :=
  stable_sort by_count (map (fun v => (v, occurrences v l)) (distinct (l ++ cats))).

(** [.head(10)] *)
Definition head10 {A : Type} (l : list A) : list A := take 10 l.

Definition max_columns : nat := 3.

(** [vc.reset_index()], then [vc_df.columns = [col_name, "count"]]: the
    values of the column beside their counts. [value_counts] names the counts
    "count" and the values after the column, and [reset_index] raises
    [ValueError] rather than insert a column named like one that is there:
    that is the case of a column that is itself named "count". *)
Definition reset_index (col_name : string) (vc : list (cell * nat)) : result table :=
  if String.eqb col_name "count" then Raise ValueError
  else Ok (Counts col_name vc).

(** The body of the loop over [enumerate(cat_cols)], inside
    [with columns[idx % max_columns]:]. [columns] are the slots made by
    [st.columns(min(max_columns, len(cat_cols)))]. *)
Definition top_values_body (columns : list nat) (entry : nat * column) : script () :=
  let '(idx, col) := entry in
  slot ← lift (getitem columns (idx mod max_columns)%nat);
  render (InColumn slot (Markdown ("**" ++ name col ++ "**")));;
  let vc := head10 (value_counts (cells col) (categories col)) in
  vc_df ← lift (reset_index (name col) vc);
  render (InColumn slot (Dataframe vc_df)).

(** The section "Top values per categorical column". *)
Definition top_values (df : DataFrame) : script () :=
  let cat_cols := cat_cols df in
  if (0 <? length cat_cols)%nat then
    render (Subheader "Top values (categorical)");;
    let columns := seq 0 (Nat.min max_columns (length cat_cols)) in
    each (top_values_body columns) (imap (fun idx col => (idx, col)) cat_cols)
  else mret ().

(** *** Summary statistics *)

(** The columns that [include=["number"]] selects. *)
Definition is_number (d : dtype) : bool :=
  match d with int64 | float64 => true | _ => false end.

Definition num_cols (df : DataFrame) : list column :=
  List.filter (fun c => is_number (col_dtype c)) (columns df).

(** [df.describe(include=["number"]).T]: one row per numeric column.
    [describe] concatenates the descriptions of the columns it selects and
    raises [ValueError] when there is none. *)
Definition describe_number (df : DataFrame) : result (list string) :=
  match num_cols df with
  | [] => Raise ValueError
  | cols => Ok (map name cols)
  end.

(** [num_summary.empty] *)
Definition empty (rows : list string) : bool :=
  match rows with [] => true | _ => false end.

(** The section "Summary statistics". [cat_summary] has one row per column
    of [cat_cols]. *)
Definition summary_statistics (df : DataFrame) : script () :=
  render (Subheader "Summary Statistics");;
  let cat_cols := cat_cols df in
  num_summary ← lift (describe_number df);
  (if negb (empty num_summary) then
     render (Markdown "**Numeric columns**");;
     render (Dataframe (Described num_summary))
   else render (Info "No numeric columns detected."));;
  if (0 <? length cat_cols)%nat then
    render (Markdown "**Categorical columns**");;
    let cat_summary := map name cat_cols in
    render (Dataframe (Described cat_summary))
  else render (Info "No categorical columns detected.").

(** The two sections as the script runs them, one after the other. *)
Definition statistics_and_top_values (df : DataFrame) : script () :=
  summary_statistics df;; top_values df.

(** The entries of one column in the arrays that make [schema_df]. *)
Definition missing_of (c : column) : Z :=
  Z.of_nat (length (List.filter isna (cells c))).

Definition missing_pct_of (df : DataFrame) (c : column) : num :=
  if len df =? 0 then Int (missing_of c * 0)
  else Float (fmul (fillna0 (fdiv (to_float64 (missing_of c)) (to_float64 (len df))))
                   (to_float64 100)).

(** [a > b] and [a == b] on the numbers of a column. *)
Definition num_gt (a b : num) : Prop := num_compare a b = Some Gt.
Definition num_eq (a b : num) : Prop := num_compare a b = Some Eq.

(** Descending percentage, then ascending name. *)
Definition row_le (r1 r2 : schema_row) : Prop :=
  num_gt (missing_pct_ r1) (missing_pct_ r2) \/
  (num_eq (missing_pct_ r1) (missing_pct_ r2) /\
   String.leb (column_ r1) (column_ r2) = true).

(** Lexicographic comparison of three integers. *)
Definition lex3 (a b : Z * Z * Z) : comparison :=
  let '(a1, a2, a3) := a in
  let '(b1, b2, b3) := b in
  match a1 ?= b1 with
  | Eq => match a2 ?= b2 with Eq => a3 ?= b3 | c => c end
  | c => c
  end.

(** The place of a float in the ascending order that [SFcompare] decides;
    the values that are not numbers are put below all others. *)
Definition rank (f : float) : Z * Z * Z :=
  match f with
  | S754_nan => (-3, 0, 0)
  | S754_infinity true => (-2, 0, 0)
  | S754_finite true m e => (-1, - e, Zneg m)
  | S754_zero _ => (0, 0, 0)
  | S754_finite false m e => (1, e, Zpos m)
  | S754_infinity false => (2, 0, 0)
  end.

Definition key (a : num) : Z * Z * Z :=
  match a with
  | Int n => (0, 0, n)
  | Float f => rank f
  end.

Definition same_kind (a b : num) : Prop :=
  match a, b with
  | Int _, Int _ | Float _, Float _ => True
  | _, _ => False
  end.




(** A percentage that is an integer, or a float that is a number. *)
Definition int_pct (r : schema_row) : Prop := exists n, missing_pct_ r = Int n.
Definition float_pct (r : schema_row) : Prop :=
  exists f, missing_pct_ r = Float f /\ f <> S754_nan.

(** The frame of the example of the specification: a numeric column with
    one missing value and a text column. *)
Definition example_frame : DataFrame :=
  {| columns :=
       [ {| name := "num"; col_dtype := float64;
            cells := [Real (to_float64 1); Real (to_float64 2); NA];
            categories := [] |};
         {| name := "cat"; col_dtype := object;
            cells := [Str "a"; Str "a"; Str "b"]; categories := [] |} ];
     len := 3 |}.


(** What the loop renders for the column at place [idx] when its table is
    [top]: the name, then the table, both in slot [idx mod 3]. *)
Definition table_of (idx : nat) (col : column) (top : list (cell * nat)) : list element :=
  [InColumn (idx mod max_columns) (Markdown ("**" ++ name col ++ "**"));
   InColumn (idx mod max_columns) (Dataframe (Counts (name col) top))].


(** A frame without a numeric column: one column of text. *)
Definition names_only : DataFrame :=
  {| columns := [ {| name := "name"; col_dtype := object;
                     cells := [Str "alice"; Str "bob"]; categories := [] |} ];
     len := 2 |}.

(** A frame with a numeric column and a text column named "count". *)
Definition count_frame : DataFrame :=
  {| columns := [ {| name := "n"; col_dtype := int64;
                     cells := [Integer 1; Integer 2]; categories := [] |};
                  {| name := "count"; col_dtype := object;
                     cells := [Str "one"; Str "two"]; categories := [] |} ];
     len := 2 |}.

(** The place in [units] of the unit that fits a count: the first one for
    which the count is below the next power of 1024, the last one otherwise. *)
Definition unit_index (n : Z) : nat :=
  if n <? 1024 then 0
  else if n <? 1024 ^ 2 then 1
  else if n <? 1024 ^ 3 then 2
  else if n <? 1024 ^ 4 then 3
  else 4.

(** Every column has one cell per row of the index. *)
Definition well_formed (df : DataFrame) : Prop :=
  0 <= len df /\
  Forall (fun c => Z.of_nat (length (cells c)) = len df) (columns df).

(** [df.head(n)]: the first [n] rows, or all rows but the last [-n] for a
    negative [n]. *)
Definition head_rows (df : DataFrame) (n : Z) : Z :=
  if 0 <=? n then Z.min n (len df) else Z.max 0 (len df + n).

Definition head_df (df : DataFrame) (n : Z) : DataFrame :=
  {| columns :=
       map (fun c => {| name := name c; col_dtype := col_dtype c;
                        cells := take (Z.to_nat (head_rows df n)) (cells c);
                        categories := categories c |})
           (columns df);
     len := head_rows df n |}.

(** [st.dataframe(df.head(rows_to_show))]: the frame of the preview, when
    the slider returns. *)
Definition preview (df : DataFrame) (chosen : option Z) : result DataFrame :=
  rows_to_show ← rows_to_show (len df) chosen;
  Ok (head_df df rows_to_show).

(** *** The overview *)

(** The digits of a number, the last one first, with a comma after every
    third digit that is followed by another. *)
Fixpoint group3 (digits : list ascii) : list ascii :=
  match digits with
  | a :: b :: c :: rest =>
      match rest with
      | [] => digits
      | _ => a :: b :: c :: ","%char :: group3 rest
      end
  | _ => digits
  end.

(** [f"{n:,}"]: the decimal numeral with a comma between groups of three
    digits, counted from the right. *)
Definition thousands (n : Z) : string :=
  let digits := list_ascii_of_string (decimal (Z.abs n)) in
  (sign_prefix (n <? 0)%Z ++ string_of_list_ascii (rev (group3 (rev digits))))%string.

(** [st.metric("Rows", f"{len(df):,}")] and
    [st.metric("Columns", f"{df.shape[1]:,}")]: the values shown. *)
Definition rows_metric (df : DataFrame) : string := thousands (len df).
Definition columns_metric (df : DataFrame) : string :=
  thousands (Z.of_nat (length (columns df))).

(** [s.replace(",", "")] *)
Definition without_commas (s : string) : string :=
  string_of_list_ascii
    (List.filter (fun c => negb (Ascii.eqb c ",")) (list_ascii_of_string s)).

(** A frame of six rows to try the preview on. *)
Definition six_rows : DataFrame :=
  {| columns :=
       [ {| name := "id"; col_dtype := int64;
            cells := map Integer [1; 2; 3; 4; 5; 6]; categories := [] |};
         {| name := "tag"; col_dtype := object;
            cells := [Str "a"; NA; Str "b"; Str "a"; NA; Str "a"];
            categories := [] |} ];
     len := 6 |}.

(** What [format_bytes] returns when it stops after [k] divisions, at
    [unit], with [num_bytes] holding [x]. *)
Definition stops_at (start : num) (remaining : list string)
    (k : nat) (unit : string) (x : num) (text : string) : Prop :=
  remaining !! k = Some unit /\
  divided start k = Ok x /\
  (forall j, (j < k)%nat -> exists y, divided start j = Ok y /\ lt_1024 y = false) /\
  (lt_1024 x = true \/ unit = "TiB"%string) /\
  format_2f x = Ok text /\
  two_decimals text /\
  format_bytes_loop remaining start = Ok (Some (text ++ " " ++ unit)%string).

Lemma stops_at_next start next u remaining k unit x text :
  lt_1024 start = false -> String.eqb u "TiB" = false ->
  truediv_1024 start = Ok next ->
  stops_at next remaining k unit x text ->
  stops_at start (u :: remaining) (S k) unit x text.
Proof.
  intros Hlt Hu Hdiv (Hk & Hd & Hbefore & Hstop & Hfmt & Htwo & Hloop).
  repeat split; try assumption.
  - cbn [divided]. rewrite Hdiv. exact Hd.
  - intros [|j] Hj.
    + exists start. split; [reflexivity | exact Hlt].
    + destruct (Hbefore j ltac:(lia)) as (y & Hy & Hylt).
      exists y. split; [|exact Hylt]. cbn [divided]. rewrite Hdiv. exact Hy.
  - cbn [format_bytes_loop]. rewrite Hlt, Hu. cbn [orb]. rewrite Hdiv. exact Hloop.
Qed.

(** Once [num_bytes] is a normal float the loop cannot fail: every further
    division is exact and the loop stops at "TiB" at the latest. *)
Lemma format_bytes_loop_float remaining :
  In "TiB"%string remaining ->
  forall s m e,
    digits2_pos m = 53%positive ->
    -1063 + 10 * Z.of_nat (length remaining) <= e <= 971 ->
    exists k unit x text,
      stops_at (Float (S754_finite s m e)) remaining k unit x text.
Proof.
  induction remaining as [|u remaining IH]; intros Hin s m e Hm He; [destruct Hin|].
  destruct (lt_1024 (Float (S754_finite s m e)) || String.eqb u "TiB") eqn:Hc.
  - exists 0%nat, u, (Float (S754_finite s m e)), (format_float_2f (S754_finite s m e)).
    repeat split.
    + intros j Hj; lia.
    + apply orb_true_iff in Hc as [Hc|Hc]; [left; exact Hc|right].
      apply String.eqb_eq; exact Hc.
    + apply format_float_2f_finite.
    + cbn [format_bytes_loop]. rewrite Hc. reflexivity.
  - apply orb_false_iff in Hc as [Hlt Hu].
    assert (Hin' : In "TiB"%string remaining).
    { destruct Hin as [->|Hin']; [|exact Hin'].
      rewrite String.eqb_refl in Hu; discriminate. }
    cbn [length] in He.
    destruct (IH Hin' s m (e - 10) Hm ltac:(lia)) as (k & unit & x & text & Hs).
    exists (S k), unit, x, text.
    apply (stops_at_next _ (Float (S754_finite s m (e - 10)))); try assumption.
    cbn [truediv_1024]. rewrite fdiv_1024_exact by (assumption || lia). reflexivity.
Qed.

(** A non-negative count below the overflow threshold is formatted. *)
Lemma format_bytes_nonneg (n : Z) :
  0 <= n < 2 ^ 1034 - 2 ^ 980 ->
  exists k unit x text, stops_at (Int n) units k unit x text.
Proof.
  intros Hn.
  destruct (Z.ltb_spec n 1024) as [Hsmall|Hbig].
  - (* returned at "B": the integer itself is formatted *)
    assert (Hf : exists f, float_of_int n = Ok f /\ two_decimals (format_float_2f f)).
    { unfold float_of_int. rewrite scaled_int_nearest by lia.
      destruct n as [|p|p]; [| |lia].
      - exists (S754_zero false). split; [reflexivity | apply format_float_2f_zero].
      - destruct (nearest_float_finite false (Zpos p) 0) as (m & e & Hr & _);
          [lia | lia | |].
        { change (2 ^ (1024 - 0) - 2 ^ (970 - 0)) with (2 ^ 1024 - 2 ^ 970).
          assert (1024 < 2 ^ 1024 - 2 ^ 970) by (vm_compute; reflexivity). lia. }
        exists (S754_finite false m e). split; [exact Hr | apply format_float_2f_finite]. }
    destruct Hf as (f & Hf & Htwo).
    exists 0%nat, "B"%string, (Int n), (format_float_2f f).
    assert (Hlt : lt_1024 (Int n) = true) by (cbn; apply Z.ltb_lt; exact Hsmall).
    repeat split.
    + intros j Hj; lia.
    + left; exact Hlt.
    + cbn [format_2f]. rewrite Hf. reflexivity.
    + exact Htwo.
    + unfold units. cbn [format_bytes_loop format_2f]. rewrite Hlt. cbn [orb].
      rewrite Hf. reflexivity.
  - (* divided at least once: the quotient is a normal float *)
    destruct (nearest_float_finite false n (-10)) as (m & e & Hr & Hm & He);
      [lia | lia | exact (proj2 Hn) |].
    apply digits2_pos_53 in Hm.
    destruct (format_bytes_loop_float ["KiB"; "MiB"; "GiB"; "TiB"]%string
                ltac:(cbn; tauto) false m e Hm ltac:(cbn [length]; lia))
      as (k & unit & x & text & Hs).
    exists (S k), unit, x, text.
    apply (stops_at_next _ (Float (S754_finite false m e))); try assumption.
    + cbn. apply Z.ltb_ge. exact Hbig.
    + reflexivity.
    + cbn [truediv_1024]. rewrite scaled_int_nearest by lia.
      destruct n as [|p|p]; [lia| |lia]. rewrite Hr. reflexivity.
Qed.

Lemma scaled_int_cases n k :
  (exists f, scaled_int n k = Ok f) \/ scaled_int n k = Raise OverflowError.
Proof.
  unfold scaled_int. destruct (binary_normalize prec emax n k false); eauto.
Qed.

(** The loop never runs off the end of a list of units that holds "TiB":
    it returns a text, unless a conversion overflows. *)
Lemma format_bytes_loop_returns remaining :
  In "TiB"%string remaining ->
  forall v,
    (exists text, format_bytes_loop remaining v = Ok (Some text)) \/
    format_bytes_loop remaining v = Raise OverflowError.
Proof.
  induction remaining as [|u remaining IH]; intros Hin v; [destruct Hin|].
  cbn [format_bytes_loop].
  destruct (lt_1024 v || String.eqb u "TiB") eqn:Hc.
  - destruct v as [n|f]; cbn [format_2f]; [|left; eexists; reflexivity].
    destruct (scaled_int_cases n 0) as [(f & Hf)|Hf]; unfold float_of_int;
      rewrite Hf; [left; eexists; reflexivity | right; reflexivity].
  - apply orb_false_iff in Hc as [_ Hu].
    assert (Hin' : In "TiB"%string remaining).
    { destruct Hin as [->|Hin']; [|exact Hin'].
      rewrite String.eqb_refl in Hu; discriminate. }
    destruct v as [n|f]; cbn [truediv_1024].
    + destruct (scaled_int_cases n (-10)) as [(f & Hf)|Hf]; rewrite Hf;
        [apply (IH Hin') | right; reflexivity].
    + apply (IH Hin').
Qed.

(** A negative count is returned at once, with unit "B", when it converts
    to a float. *)
Lemma format_bytes_negative (n : Z) :
  - (2 ^ 1024 - 2 ^ 970) < n < 0 ->
  exists text,
    format_2f (Int n) = Ok text /\
    format_bytes n = Ok (Some (text ++ " B")%string).
Proof.
  intros Hn. destruct n as [|p|p]; [lia|lia|].
  destruct (nearest_float_finite true (Zpos p) 0) as (m & e & Hr & _);
    [lia | lia | change (2 ^ (1024 - 0) - 2 ^ (970 - 0)) with (2 ^ 1024 - 2 ^ 970); lia|].
  exists (format_float_2f (S754_finite true m e)).
  unfold format_bytes, units.
  cbn [format_bytes_loop format_2f lt_1024]. unfold float_of_int.
  rewrite scaled_int_nearest by lia.
  change (- Zneg p) with (Zpos p). rewrite Hr.
  replace (Zneg p <? 1024) with true by (symmetry; apply Z.ltb_lt; lia).
  split; reflexivity.
Qed.

(** Outside the range of the floats the conversion raises. *)
Lemma format_bytes_overflow (n : Z) :
  n <= - (2 ^ 1024 - 2 ^ 970) \/ 2 ^ 1034 - 2 ^ 980 <= n ->
  format_bytes n = Raise OverflowError.
Proof.
  assert (Hpos : 1024 < 2 ^ 1024 - 2 ^ 970 /\ 1024 < 2 ^ 1034 - 2 ^ 980)
    by (split; vm_compute; reflexivity).
  intros [Hn|Hn]; unfold format_bytes, units;
    cbn [format_bytes_loop format_2f truediv_1024 lt_1024 float_of_int].
  - replace (n <? 1024) with true by (symmetry; apply Z.ltb_lt; lia).
    cbn [orb]. destruct n as [|p|p]; [lia|lia|].
    unfold float_of_int. rewrite scaled_int_nearest by lia.
    change (- Zneg p) with (Zpos p).
    rewrite nearest_float_overflow; [reflexivity|lia|lia|].
    change (2 ^ (1024 - 0) - 2 ^ (970 - 0)) with (2 ^ 1024 - 2 ^ 970). lia.
  - replace (n <? 1024) with false by (symmetry; apply Z.ltb_ge; lia).
    cbn [orb String.eqb Ascii.eqb Bool.eqb andb]. destruct n as [|p|p]; [lia| |lia].
    rewrite scaled_int_nearest by lia.
    rewrite nearest_float_overflow; [reflexivity|lia|lia|].
    change (2 ^ (1024 - -10) - 2 ^ (970 - -10)) with (2 ^ 1034 - 2 ^ 980). lia.
Qed.

(** Rounding to two decimals goes to the nearest value, ties to even. *)
Example format_bytes_ties :
  format_bytes 1152 = Ok (Some "1.12 KiB"%string) /\
  format_bytes 1408 = Ok (Some "1.38 KiB"%string) /\
  format_bytes 1048575 = Ok (Some "1024.00 KiB"%string) /\
  format_bytes (2 ^ 60 - 1) = Ok (Some "1048576.00 TiB"%string) /\
  format_bytes (-5) = Ok (Some "-5.00 B"%string).
Proof. repeat split; vm_compute; reflexivity. Qed.

(** C2 (amended): the four sample values are formatted as stated, and a
    non-negative count below 2^1034 - 2^980 is divided by 1024 until it is
    below 1024 or the unit is "TiB", then printed with two decimals and that
    unit; the unit is one of the five, and no exception is raised. From
    2^1034 - 2^980 on the first division raises [OverflowError]. *)
Theorem format_bytes_in_range :
  (format_bytes 0 = Ok (Some "0.00 B"%string) /\
   format_bytes 1023 = Ok (Some "1023.00 B"%string) /\
   format_bytes 1024 = Ok (Some "1.00 KiB"%string) /\
   format_bytes (1024 ^ 4) = Ok (Some "1.00 TiB"%string)) /\
  (forall n : Z,
    0 <= n < 2 ^ 1034 - 2 ^ 980 ->
    exists (k : nat) (unit : string) (x : num) (text : string),
      units !! k = Some unit /\
      divided (Int n) k = Ok x /\
      (forall j, (j < k)%nat ->
                 exists y, divided (Int n) j = Ok y /\ lt_1024 y = false) /\
      (lt_1024 x = true \/ unit = "TiB"%string) /\
      format_2f x = Ok text /\
      two_decimals text /\
      format_bytes n = Ok (Some (text ++ " " ++ unit)%string)) /\
  (forall n : Z,
    2 ^ 1034 - 2 ^ 980 <= n ->
    divided (Int n) 1 = Raise OverflowError /\
    format_bytes n = Raise OverflowError).
Proof.
  split; [repeat split; vm_compute; reflexivity|].
  split; [intros n Hn; exact (format_bytes_nonneg n Hn)|].
  intros n Hn. split; [|apply format_bytes_overflow; right; exact Hn].
  assert (0 < 2 ^ 1034 - 2 ^ 980) by (vm_compute; reflexivity).
  cbn [divided truediv_1024]. rewrite scaled_int_nearest by lia.
  destruct n as [|p|p]; [lia| |lia].
  rewrite nearest_float_overflow; [reflexivity|lia|lia|].
  change (2 ^ (1024 - -10) - 2 ^ (970 - -10)) with (2 ^ 1034 - 2 ^ 980). lia.
Qed.

Lemma format_bytes_in_range_witness :
  0 <= 1536 < 2 ^ 1034 - 2 ^ 980 /\
  exists (k : nat) (unit : string) (x : num) (text : string),
    units !! k = Some unit /\
    divided (Int 1536) k = Ok x /\
    (forall j, (j < k)%nat ->
               exists y, divided (Int 1536) j = Ok y /\ lt_1024 y = false) /\
    (lt_1024 x = true \/ unit = "TiB"%string) /\
    format_2f x = Ok text /\
    two_decimals text /\
    format_bytes 1536 = Ok (Some (text ++ " " ++ unit)%string).
Proof.
  assert (H : 0 <= 1536 < 2 ^ 1034 - 2 ^ 980) by (split; vm_compute; congruence).
  split; [exact H | exact (proj1 (proj2 format_bytes_in_range) 1536 H)].
Defined.

(** C2 as stated fails: a count of 2^1034 bytes is not formatted, the first
    division overflows. *)
Lemma format_bytes_huge_raises :
  0 <= 2 ^ 1034 /\ format_bytes (2 ^ 1034) = Raise OverflowError.
Proof. split; [vm_compute; congruence | vm_compute; reflexivity]. Qed.

(** C10 (amended): [format_bytes] never falls off the end of its loop; on
    every integer it returns a text or raises [OverflowError], and it returns
    a text exactly for the integers strictly between -(2^1024 - 2^970) and
    2^1034 - 2^980; a negative one of these is returned at once with unit
    "B". *)
Theorem format_bytes_total_in_range :
  (forall n : Z, format_bytes n <> Ok None) /\
  (forall n : Z,
      (exists text, format_bytes n = Ok (Some text)) \/
      format_bytes n = Raise OverflowError) /\
  (forall n : Z,
      - (2 ^ 1024 - 2 ^ 970) < n < 2 ^ 1034 - 2 ^ 980 ->
      exists text, format_bytes n = Ok (Some text)) /\
  (forall n : Z,
      n <= - (2 ^ 1024 - 2 ^ 970) \/ 2 ^ 1034 - 2 ^ 980 <= n ->
      format_bytes n = Raise OverflowError) /\
  (forall n : Z,
      - (2 ^ 1024 - 2 ^ 970) < n < 0 ->
      exists text,
        format_2f (Int n) = Ok text /\
        format_bytes n = Ok (Some (text ++ " B")%string)).
Proof.
  assert (Hret : forall n : Z,
             (exists text, format_bytes n = Ok (Some text)) \/
             format_bytes n = Raise OverflowError).
  { intros n. apply format_bytes_loop_returns. cbn; tauto. }
  split; [|split; [exact Hret|split; [|split]]].
  - intros n Hnone. destruct (Hret n) as [(text & H)|H]; congruence.
  - intros n Hn. destruct (Z.lt_ge_cases n 0) as [Hneg|Hnn].
    + destruct (format_bytes_negative n ltac:(lia)) as (text & _ & H). eauto.
    + destruct (format_bytes_nonneg n ltac:(lia))
        as (k & unit & x & text & _ & _ & _ & _ & _ & _ & H).
      eexists. exact H.
  - exact format_bytes_overflow.
  - exact format_bytes_negative.
Qed.

Lemma format_bytes_total_in_range_witness :
  - (2 ^ 1024 - 2 ^ 970) < -5 < 0 /\
  exists text,
    format_2f (Int (-5)) = Ok text /\
    format_bytes (-5) = Ok (Some (text ++ " B")%string).
Proof.
  assert (H : - (2 ^ 1024 - 2 ^ 970) < -5 < 0) by (split; vm_compute; reflexivity).
  split; [exact H|].
  exact (proj2 (proj2 (proj2 (proj2 format_bytes_total_in_range))) (-5) H).
Defined.

(** C10 as stated fails: a negative count of 2^1024 bytes is not returned
    with unit "B", its conversion to a float overflows. *)
Lemma format_bytes_negative_huge_raises :
  - 2 ^ 1024 < 0 /\ format_bytes (- 2 ^ 1024) = Raise OverflowError.
Proof. split; vm_compute; reflexivity. Qed.

(** *** The loader *)

Section LoaderFacts.

Context {DataFrame : Type}.
Variable parse : encoding_errors -> list Byte.byte -> result DataFrame * nat.
Variable str : exn -> string.
Variable summary : DataFrame -> script ().

Abbreviation main := (main parse str summary).

(** Rewinding makes the retry read the stream from its first byte. *)
Lemma read_csv_after_seek (f : UploadedFile) (errors : encoding_errors) :
  fst (read_csv parse (seek f 0) errors) = fst (parse errors (content f)).
Proof.
  unfold read_csv, seek. cbn [position content]. rewrite drop_0.
  destruct (parse errors (content f)); reflexivity.
Qed.

(** First path: the strict parse succeeds and the script goes on. *)
Lemma load_strict (f : UploadedFile) (df : DataFrame) :
  fst (parse Strict (drop (position f) (content f))) = Ok df ->
  run (main (Some f)) = summary df header.
Proof.
  intros H. unfold run, main, load, read_csv.
  destruct (parse Strict (drop (position f) (content f))) as [r used].
  cbn in H. subst r. reflexivity.
Qed.

(** Second path: a decode error is followed by one lossy parse of the
    whole stream; when that one succeeds the script goes on. *)
Lemma load_fallback (f : UploadedFile) (df : DataFrame) :
  fst (parse Strict (drop (position f) (content f))) = Raise UnicodeDecodeError ->
  fst (parse Ignore (content f)) = Ok df ->
  run (main (Some f)) = summary df header.
Proof.
  intros H1 H2. unfold run, main, load.
  unfold read_csv at 1.
  destruct (parse Strict (drop (position f) (content f))) as [r used].
  cbn in H1. subst r. cbn [is_UnicodeDecodeError].
  match goal with |- context [read_csv parse (seek ?g 0) Ignore] =>
    pose proof (read_csv_after_seek g Ignore) as Hr;
    destruct (read_csv parse (seek g 0) Ignore) as [r' g'] eqn:E end.
  cbn [fst content] in Hr. rewrite H2 in Hr. subst r'.
  reflexivity.
Qed.

(** Third path: any other exception of the strict parse is reported on
    the page and the script is halted; nothing else is rendered. *)
Lemma load_error_halts (f : UploadedFile) (exc : exn) :
  fst (parse Strict (drop (position f) (content f))) = Raise exc ->
  is_UnicodeDecodeError exc = false ->
  run (main (Some f))
  = (header ++ [Error ("Could not read the CSV: " ++ str exc)], Stopped).
Proof.
  intros H1 H2. unfold run, main, load, read_csv.
  destruct (parse Strict (drop (position f) (content f))) as [r used].
  cbn in H1. subst r. rewrite H2. reflexivity.
Qed.

(** C1 (the path the claim leaves out): when the strict parse raises a
    decode error and the lossy parse raises too, the second exception is
    handled by nobody: the script ends with it, no error is shown on the
    page and the run is not halted by [st.stop()]. *)
Theorem load_fallback_failure_uncaught (f : UploadedFile) (exc : exn) :
  fst (parse Strict (drop (position f) (content f))) = Raise UnicodeDecodeError ->
  fst (parse Ignore (content f)) = Raise exc ->
  run (main (Some f)) = (header, Uncaught exc).
Proof.
  intros H1 H2. unfold run, main, load.
  unfold read_csv at 1.
  destruct (parse Strict (drop (position f) (content f))) as [r used].
  cbn in H1. subst r. cbn [is_UnicodeDecodeError].
  match goal with |- context [read_csv parse (seek ?g 0) Ignore] =>
    pose proof (read_csv_after_seek g Ignore) as Hr;
    destruct (read_csv parse (seek g 0) Ignore) as [r' g'] eqn:E end.
  cbn [fst content] in Hr. rewrite H2 in Hr. subst r'.
  reflexivity.
Qed.

End LoaderFacts.

(** An upload of the single byte FF: not UTF-8, and empty once the byte is
    dropped. *)
Lemma load_fallback_failure_uncaught_witness :
  run (main sample_parse sample_str sample_summary
         (Some {| content := [Byte.xff]; position := 0 |}))
  = (header, Uncaught EmptyDataError).
Proof.
  apply (load_fallback_failure_uncaught sample_parse sample_str sample_summary
           {| content := [Byte.xff]; position := 0 |} EmptyDataError);
    reflexivity.
Defined.

(** The same exception from the first parse is reported and halts the run. *)
Example load_empty_upload :
  run (main sample_parse sample_str sample_summary
         (Some {| content := []; position := 0 |}))
  = (header ++ [Error "Could not read the CSV: No columns to parse from file"],
     Stopped).
Proof. reflexivity. Qed.

(** *** Sorting *)

Section Sorting.

Context {A : Type} (before : A -> A -> bool).

Lemma insert_sorted_perm x l : Permutation (insert_sorted before x l) (x :: l).
Proof.
  induction l as [|y l IH]; cbn [insert_sorted]; [reflexivity|].
  destruct (before x y); [reflexivity|].
  rewrite IH. apply perm_swap.
Qed.

Lemma stable_sort_perm l : Permutation (stable_sort before l) l.
Proof.
  induction l as [|x l IH]; cbn; [reflexivity|].
  rewrite insert_sorted_perm. apply perm_skip. exact IH.
Qed.

(** Any two elements can be put in order. *)
Hypothesis total : forall x y, before x y = false -> before y x = true.

Lemma insert_sorted_Sorted x l :
  Sorted (ordered before) l -> Sorted (ordered before) (insert_sorted before x l).
Proof.
  induction 1 as [|y l Hs IH Hhd]; cbn [insert_sorted].
  - repeat constructor.
  - destruct (before x y) eqn:E.
    + constructor; [constructor; assumption | constructor; exact E].
    + constructor; [exact IH|].
      destruct l as [|z l]; cbn [insert_sorted].
      * constructor. apply total, E.
      * destruct (before x z); constructor; [apply total, E|].
        inversion Hhd; assumption.
Qed.

Lemma stable_sort_Sorted l : Sorted (ordered before) (stable_sort before l).
Proof.
  induction l as [|x l IH]; cbn; [constructor|].
  apply insert_sorted_Sorted, IH.
Qed.

(** The order is transitive on the elements that satisfy [P]. *)
Variable P : A -> Prop.
Hypothesis trans :
  forall x y z, P x -> P y -> P z ->
  ordered before x y -> ordered before y z -> ordered before x z.

Lemma insert_sorted_StronglySorted x l :
  P x -> Forall P l ->
  StronglySorted (ordered before) l -> StronglySorted (ordered before) (insert_sorted before x l).
Proof.
  intros Px HP Hs. induction Hs as [|y l Hs IH Hall]; cbn [insert_sorted].
  - repeat constructor.
  - apply Forall_cons_1 in HP as [Py HP].
    destruct (before x y) eqn:E.
    + constructor; [constructor; assumption|].
      constructor; [exact E|].
      rewrite List.Forall_forall in Hall, HP |- *. intros z Hz.
      apply (trans x y z); auto.
    + constructor; [apply IH, HP|].
      rewrite (insert_sorted_perm x l). constructor; [apply total, E | exact Hall].
Qed.

Lemma stable_sort_StronglySorted l :
  Forall P l -> StronglySorted (ordered before) (stable_sort before l).
Proof.
  induction l as [|x l IH]; intros HP; cbn; [constructor|].
  apply Forall_cons_1 in HP as [Px HP].
  apply insert_sorted_StronglySorted; [exact Px| |apply IH, HP].
  rewrite (stable_sort_perm l). exact HP.
Qed.

End Sorting.



(** *** Order of strings and numbers *)

Lemma string_leb_trans (s1 s2 s3 : string) :
  String.leb s1 s2 = true -> String.leb s2 s3 = true -> String.leb s1 s3 = true.
Proof.
  unfold String.leb. revert s2 s3.
  induction s1 as [|a s1 IH]; intros [|b s2] [|c s3]; cbn; try easy.
  unfold Ascii.compare.
  destruct (N.compare_spec (N_of_ascii a) (N_of_ascii b)) as [Eab|Lab|Gab];
    destruct (N.compare_spec (N_of_ascii b) (N_of_ascii c)) as [Ebc|Lbc|Gbc];
    destruct (N.compare_spec (N_of_ascii a) (N_of_ascii c)) as [Eac|Lac|Gac];
    try easy; try lia.
  apply IH.
Qed.

Lemma SFcompare_rank (f g : float) :
  f <> S754_nan -> g <> S754_nan -> SFcompare f g = Some (lex3 (rank f) (rank g)).
Proof.
  intros Hf Hg.
  destruct f as [s1|s1| |s1 m1 e1], g as [s2|s2| |s2 m2 e2]; try congruence;
    try (destruct s1; try destruct s2; reflexivity);
    try (destruct s2; reflexivity).
  destruct s1, s2; cbn; try reflexivity.
  rewrite Z.compare_opp, (Z.compare_antisym e1 e2).
  destruct (e1 ?= e2); reflexivity.
Qed.

Lemma lex3_antisym a b : lex3 b a = CompOpp (lex3 a b).
Proof.
  destruct a as [[a1 a2] a3], b as [[b1 b2] b3]; cbn.
  rewrite (Z.compare_antisym a1 b1), (Z.compare_antisym a2 b2), (Z.compare_antisym a3 b3).
  destruct (a1 ?= b1), (a2 ?= b2), (a3 ?= b3); reflexivity.
Qed.

(** Within one kind of number, the descending order is the order of the
    keys, reversed. *)
Lemma descending_key (a b : num) :
  same_kind a b -> descending a b = lex3 (key b) (key a).
Proof.
  destruct a as [x|f], b as [y|g]; cbn [same_kind]; try easy; intros _.
  - cbn. rewrite (Z.compare_antisym x y). reflexivity.
  - unfold descending. cbn [key num_compare].
    destruct (decide (f = S754_nan)) as [->|Hf], (decide (g = S754_nan)) as [->|Hg].
    + reflexivity.
    + destruct g as [[]|[]| |[] m e]; try congruence; reflexivity.
    + destruct f as [[]|[]| |[] m e]; try congruence; reflexivity.
    + replace (is_nan (Float f)) with false by (destruct f; cbn; congruence).
      replace (is_nan (Float g)) with false by (destruct g; cbn; congruence).
      rewrite SFcompare_rank by assumption. symmetry. apply lex3_antisym.
Qed.

Lemma descending_antisym (a b : num) : descending b a = CompOpp (descending a b).
Proof.
  unfold descending.
  destruct (is_nan a) eqn:Ha, (is_nan b) eqn:Hb; try reflexivity.
  assert (Hopp : num_compare b a = option_map CompOpp (num_compare a b)).
  { assert (Hsf : forall f g, SFcompare g f = option_map CompOpp (SFcompare f g)).
    { intros f g.
      destruct f as [s1|s1| |s1 m1 e1], g as [s2|s2| |s2 m2 e2];
        try reflexivity;
        try (destruct s1; try destruct s2; reflexivity);
        try (destruct s2; reflexivity).
      destruct s1, s2; cbn; try reflexivity;
        rewrite (Z.compare_antisym e1 e2);
        change (Pos.compare_cont Eq m1 m2) with (m1 ?= m2)%positive;
        change (Pos.compare_cont Eq m2 m1) with (m2 ?= m1)%positive;
        rewrite (Pos.compare_antisym m1 m2);
        destruct (e1 ?= e2), (m1 ?= m2)%positive; reflexivity. }
    destruct a as [x|f], b as [y|g]; cbn [num_compare]; try apply Hsf.
    cbn. rewrite (Z.compare_antisym x y). reflexivity. }
  rewrite Hopp. destruct (num_compare a b) as [c|]; [destruct c|]; reflexivity.
Qed.

Lemma lex3_trans a b c :
  lex3 a b <> Gt -> lex3 b c <> Gt ->
  lex3 a c <> Gt /\ (lex3 a c = Eq -> lex3 a b = Eq /\ lex3 b c = Eq).
Proof.
  destruct a as [[a1 a2] a3], b as [[b1 b2] b3], c as [[c1 c2] c3]; cbn.
  destruct (Z.compare_spec a1 b1), (Z.compare_spec b1 c1), (Z.compare_spec a1 c1);
    try lia; try easy;
    destruct (Z.compare_spec a2 b2), (Z.compare_spec b2 c2), (Z.compare_spec a2 c2);
    try lia; try easy;
    destruct (Z.compare_spec a3 b3), (Z.compare_spec b3 c3), (Z.compare_spec a3 c3);
    try lia; try easy.
Qed.

Lemma row_before_total r1 r2 : row_before r1 r2 = false -> row_before r2 r1 = true.
Proof.
  unfold row_before. rewrite (descending_antisym (missing_pct_ r1) (missing_pct_ r2)).
  destruct (descending (missing_pct_ r1) (missing_pct_ r2)); cbn; try easy.
  intros H. destruct (String.leb_total (column_ r1) (column_ r2)); congruence.
Qed.

Lemma row_before_trans_kind (r1 r2 r3 : schema_row) :
  same_kind (missing_pct_ r1) (missing_pct_ r2) ->
  same_kind (missing_pct_ r2) (missing_pct_ r3) ->
  same_kind (missing_pct_ r1) (missing_pct_ r3) ->
  row_before r1 r2 = true -> row_before r2 r3 = true -> row_before r1 r3 = true.
Proof.
  intros K12 K23 K13. unfold row_before.
  rewrite !descending_key by assumption.
  pose proof (lex3_trans (key (missing_pct_ r3)) (key (missing_pct_ r2))
                (key (missing_pct_ r1))) as T.
  destruct (lex3 (key (missing_pct_ r2)) (key (missing_pct_ r1))) eqn:E12;
    destruct (lex3 (key (missing_pct_ r3)) (key (missing_pct_ r2))) eqn:E23;
    destruct (lex3 (key (missing_pct_ r3)) (key (missing_pct_ r1))) eqn:E13;
    cbn in T; try easy; intros H1 H2;
    try (destruct T as [T1 T2]; try easy; try (now destruct T2)).
  eapply string_leb_trans; eassumption.
Qed.

(** *** Floats that are numbers *)

Lemma iter_pos_invariant {A : Type} (f : A -> A) (I : A -> Prop) :
  (forall x, I x -> I (f x)) ->
  forall p x, I x -> I (SpecFloat.iter_pos f p x).
Proof.
  intros Hf. induction p as [p IH|p IH|]; intros x Hx; cbn; auto.
Qed.

Lemma shr_1_nonneg mrs : 0 <= shr_m mrs -> 0 <= shr_m (shr_1 mrs).
Proof.
  destruct mrs as [m r s0]; cbn. destruct m as [|[p|p|]|[p|p|]]; cbn; lia.
Qed.

Lemma shr_fexp_nonneg m e l :
  0 <= m -> 0 <= shr_m (fst (shr_fexp prec emax m e l)).
Proof.
  intros Hm. unfold shr_fexp, shr.
  assert (H0 : 0 <= shr_m (shr_record_of_loc m l))
    by (destruct l as [|[]]; cbn; exact Hm).
  destruct (fexp prec emax (Zdigits2 m + e) - e); cbn [fst]; try exact H0.
  apply iter_pos_invariant; [exact shr_1_nonneg | exact H0].
Qed.

Lemma round_nearest_even_nonneg m l : 0 <= m -> 0 <= round_nearest_even m l.
Proof.
  intros Hm. destruct l as [|[]]; cbn; try lia. destruct (Z.even m); lia.
Qed.

(** Rounding a non-negative mantissa never gives a value that is not a
    number. *)
Lemma binary_round_aux_not_nan s mx ex lx :
  0 <= mx -> binary_round_aux prec emax s mx ex lx <> S754_nan.
Proof.
  intros Hm. unfold binary_round_aux.
  pose proof (shr_fexp_nonneg mx ex lx Hm) as H1.
  destruct (shr_fexp prec emax mx ex lx) as [mrs' e'].
  pose proof (shr_fexp_nonneg
                (round_nearest_even (shr_m mrs') (loc_of_shr_record mrs')) e' loc_Exact
                (round_nearest_even_nonneg _ _ H1)) as H2.
  destruct (shr_fexp prec emax _ e' loc_Exact) as [mrs'' e''].
  cbn [fst] in H2. destruct (shr_m mrs'') as [|p|p]; [discriminate| |lia].
  destruct (e'' <=? emax - prec); discriminate.
Qed.

Lemma fmul_100_not_nan f : f <> S754_nan -> fmul f (to_float64 100) <> S754_nan.
Proof.
  intros Hf.
  change (to_float64 100) with (S754_finite false 7036874417766400 (-46)).
  destruct f as [s|s| |s m e]; try congruence; try discriminate.
  apply binary_round_aux_not_nan. lia.
Qed.

Lemma fdiv_100_not_nan f : f <> S754_nan -> fdiv f (to_float64 100) <> S754_nan.
Proof.
  intros Hf.
  change (to_float64 100) with (S754_finite false 7036874417766400 (-46)).
  destruct f as [s|s| |s m e]; try congruence; try discriminate.
  unfold fdiv, SFdiv, SFdiv_core_binary.
  match goal with |- context [IntDef.Z.div_eucl ?a ?b] =>
    pose proof (Z.div_eucl_eq a b ltac:(lia)) as Heq;
    pose proof (Z.mod_pos_bound a b ltac:(lia)) as Hb;
    assert (Ha : 0 <= a);
    [|unfold Z.modulo in Hb; change IntDef.Z.div_eucl with Z.div_eucl;
      destruct (Z.div_eucl a b) as [q r]]
  end.
  { match goal with |- 0 <= match ?x with _ => _ end => destruct x end;
      try lia. rewrite Z.shiftl_mul_pow2 by lia.
    apply Z.mul_nonneg_nonneg; [lia | apply Z.pow_nonneg; lia]. }
  apply binary_round_aux_not_nan. nia.
Qed.

Lemma rint_not_nan f : f <> S754_nan -> rint f <> S754_nan.
Proof.
  intros Hf. destruct f as [s|s| |s m e]; try congruence; try discriminate.
  cbn [rint]. destruct (0 <=? e); [discriminate|].
  destruct (round_half_even (Zpos m) (2 ^ (- e)) =? 0); [discriminate|].
  match goal with |- binary_normalize _ _ ?n _ _ <> _ =>
    unfold binary_normalize, binary_round; destruct n as [|p|p]; [discriminate| |] end;
    match goal with |- context [shl_align ?a ?b ?c] => destruct (shl_align a b c) end;
    apply binary_round_aux_not_nan; lia.
Qed.

Lemma fillna0_not_nan f : fillna0 f <> S754_nan.
Proof. destruct f; discriminate. Qed.

(** *** The schema report *)

Lemma zip_map_3 {A B C : Type} (f : A -> B) (g : A -> C) (l : list A) :
  zip (zip l (map f l)) (map g l) = map (fun a => (a, f a, g a)) l.
Proof. induction l as [|a l IH]; cbn; [reflexivity | rewrite IH; reflexivity]. Qed.

(** [schema_df] has one row per column, in the order of the columns. *)
Lemma schema_df_rows (df : DataFrame) :
  schema_df df
  = map (fun c => schema_row_of c (missing_of c) (missing_pct_of df c)) (columns df).
Proof.
  unfold schema_df, missing_pct, missing_counts, missing_pct_of.
  destruct (len df =? 0); rewrite !map_map;
    rewrite (zip_map_3 _ _ (columns df)), map_map; reflexivity.
Qed.

Lemma schema_df_kind (df : DataFrame) :
  Forall int_pct (schema_df df) \/ Forall float_pct (schema_df df).
Proof.
  rewrite schema_df_rows. unfold missing_pct_of.
  destruct (len df =? 0); [left | right]; apply Forall_map, Forall_true; intros c.
  - eexists; reflexivity.
  - eexists; split; [reflexivity|].
    apply fdiv_100_not_nan, rint_not_nan, fmul_100_not_nan, fmul_100_not_nan,
      fillna0_not_nan.
Qed.

Lemma row_before_le_int r1 r2 :
  int_pct r1 -> int_pct r2 -> row_before r1 r2 = true -> row_le r1 r2.
Proof.
  intros [x Hx] [y Hy]. unfold row_before, row_le, num_gt, num_eq, descending.
  rewrite Hx, Hy. cbn. destruct (x ?= y); cbn; intros H; try discriminate; auto.
Qed.

Lemma row_before_le_float r1 r2 :
  float_pct r1 -> float_pct r2 -> row_before r1 r2 = true -> row_le r1 r2.
Proof.
  intros (f & Hf & Nf) (g & Hg & Ng).
  unfold row_before, row_le, num_gt, num_eq, descending.
  rewrite Hf, Hg. cbn [num_compare].
  replace (is_nan (Float f)) with false by (destruct f; cbn; congruence).
  replace (is_nan (Float g)) with false by (destruct g; cbn; congruence).
  rewrite (SFcompare_rank f g Nf Ng).
  destruct (lex3 (rank f) (rank g)); cbn; intros H; try discriminate; auto.
Qed.

Lemma StronglySorted_weaken {A} (R R' : A -> A -> Prop) (P : A -> Prop) (l : list A) :
  (forall x y, P x -> P y -> R x y -> R' x y) ->
  Forall P l -> StronglySorted R l -> StronglySorted R' l.
Proof.
  intros HR HP Hs. induction Hs as [|a l Hs IH Hall]; [constructor|].
  apply Forall_cons_1 in HP as [Pa HP].
  constructor; [apply IH, HP|].
  rewrite List.Forall_forall in Hall |- *. intros x Hx.
  apply HR; auto. rewrite Forall_forall in HP. apply HP, list_elem_of_In, Hx.
Qed.

(** The report is in order, whatever the frame. *)
Lemma schema_report_StronglySorted (df : DataFrame) :
  StronglySorted row_le (schema_report df).
Proof.
  unfold schema_report.
  destruct (schema_df_kind df) as [HP|HP].
  - apply (StronglySorted_weaken (ordered row_before) row_le int_pct).
    + exact row_before_le_int.
    + rewrite (stable_sort_perm row_before (schema_df df)). exact HP.
    + apply (stable_sort_StronglySorted row_before row_before_total int_pct);
        [|exact HP].
      intros x y z [a Ha] [b Hb] [c Hc].
      apply row_before_trans_kind; rewrite ?Ha, ?Hb, ?Hc; exact I.
  - apply (StronglySorted_weaken (ordered row_before) row_le float_pct).
    + exact row_before_le_float.
    + rewrite (stable_sort_perm row_before (schema_df df)). exact HP.
    + apply (stable_sort_StronglySorted row_before row_before_total float_pct);
        [|exact HP].
      intros x y z (a & Ha & _) (b & Hb & _) (c & Hc & _).
      apply row_before_trans_kind; rewrite ?Ha, ?Hb, ?Hc; exact I.
Qed.

(** One missing cell of three is reported as 33.33, the float nearest to
    3333 / 100. *)
Example schema_report_example :
  schema_report example_frame
  = [ {| column_ := "num"; dtype_ := "float64"; missing := 1;
         missing_pct_ := Float (fdiv (to_float64 3333) (to_float64 100)) |};
      {| column_ := "cat"; dtype_ := "object"; missing := 0;
         missing_pct_ := Float (S754_zero false) |} ].
Proof. vm_compute. reflexivity. Qed.



(** C5: for a frame without rows the percentage of every column is the
    integer 0, computed as [missing_counts * 0]: the quotient by the row count
    is not taken, and the report has a row for every column. *)
Theorem schema_report_no_rows (df : DataFrame) :
  len df = 0 ->
  missing_pct df = map (fun count => Int (count * 0)) (missing_counts df) /\
  Forall (fun pct => pct = Int 0) (missing_pct df) /\
  Forall (fun r => missing_pct_ r = Int 0) (schema_report df) /\
  Permutation (map column_ (schema_report df)) (map name (columns df)).
Proof.
  intros Hlen.
  assert (Hrows : schema_df df
                  = map (fun c => schema_row_of c (missing_of c) (Int 0)) (columns df)).
  { rewrite schema_df_rows. apply map_ext. intros c.
    unfold missing_pct_of. rewrite Hlen. cbn [Z.eqb]. rewrite Z.mul_0_r. reflexivity. }
  split; [|split; [|split]].
  - unfold missing_pct. rewrite Hlen. reflexivity.
  - unfold missing_pct. rewrite Hlen. cbn [Z.eqb].
    apply Forall_map, Forall_true. intros c. rewrite Z.mul_0_r. reflexivity.
  - unfold schema_report. rewrite (stable_sort_perm row_before (schema_df df)), Hrows.
    apply Forall_map, Forall_true. intros c. reflexivity.
  - unfold schema_report. rewrite (stable_sort_perm row_before (schema_df df)), Hrows.
    rewrite map_map. reflexivity.
Qed.

Lemma schema_report_no_rows_witness :
  Forall (fun r => missing_pct_ r = Int 0)
         (schema_report {| columns := columns example_frame; len := 0 |}).
Proof.
  apply (schema_report_no_rows {| columns := columns example_frame; len := 0 |}).
  reflexivity.
Defined.


(** *** The preview slider *)

(** With more than five rows the bounds differ and hold the default: the
    slider returns a number within them, the default while it is not moved. *)
Lemma rows_to_show_enough_rows (len_df : Z) (chosen : option Z) :
  5 < len_df ->
  within (rows_to_preview len_df) (value (rows_to_preview len_df)) = true /\
  (exists k, rows_to_show len_df chosen = Ok k /\
             5 <= k <= Z.min 1000 (Z.max 5 len_df)) /\
  rows_to_show len_df None = Ok (Z.min 50 len_df).
Proof.
  intros Hlen. unfold rows_to_show, slider_value, widened, rows_to_preview.
  cbn [value min_value max_value].
  destruct (Z.eqb_spec (Z.min (Z.min 50 len_df) (Z.min 5 (Z.min 1000 (Z.max 5 len_df))))
              (Z.max (Z.min 50 len_df)
                 (Z.max (Z.min 5 (Z.min 1000 (Z.max 5 len_df)))
                    (Z.min 1000 (Z.max 5 len_df))))) as [E|_]; [lia|].
  split; [|split; [|reflexivity]].
  - unfold within; cbn [value min_value max_value]. lia.
  - destruct chosen as [v|]; [|eexists; split; [reflexivity|lia]].
    unfold within; cbn [value min_value max_value].
    match goal with |- context [if ?b then _ else _] => destruct b eqn:Hv end;
      eexists; (split; [reflexivity|]); lia.
Qed.

(** With exactly five rows the three arguments are 5, 5 and 5: the widget
    raises and there is no preview, whatever the user does. *)
Lemma rows_to_show_five_rows (chosen : option Z) :
  rows_to_show 5 chosen = Raise StreamlitInvalidMinMaxError.
Proof. reflexivity. Qed.

(** C7 (where the code departs from it): with fewer than five rows the
    bounds of the slider are 5 and 5, as claimed, but the default value is the
    row count: it lies below the lower bound, and the number of rows the
    slider starts with is not within the interval; the user can choose any
    number from the row count to 5. *)
Theorem rows_to_show_few_rows (len_df : Z) :
  0 <= len_df < 5 ->
  min_value (rows_to_preview len_df) = 5 /\
  max_value (rows_to_preview len_df) = 5 /\
  value (rows_to_preview len_df) = len_df /\
  within (rows_to_preview len_df) (value (rows_to_preview len_df)) = false /\
  rows_to_show len_df None = Ok len_df /\
  (forall k, rows_to_show len_df None = Ok k ->
             ~ (5 <= k <= Z.min 1000 (Z.max 5 len_df))) /\
  (forall v, len_df <= v <= 5 -> rows_to_show len_df (Some v) = Ok v).
Proof.
  intros Hlen.
  assert (Hw : widened (rows_to_preview len_df)
               = {| min_value := len_df; max_value := 5; value := len_df |}).
  { unfold widened, rows_to_preview. cbn [value min_value max_value].
    f_equal; lia. }
  assert (Hdefault : rows_to_show len_df None = Ok len_df).
  { unfold rows_to_show, slider_value. rewrite Hw. cbn [value min_value max_value].
    destruct (Z.eqb_spec len_df 5); [lia|].
    unfold rows_to_preview; cbn [value]. f_equal. lia. }
  split; [reflexivity|]. split; [unfold rows_to_preview; cbn [max_value]; lia|].
  split; [unfold rows_to_preview; cbn [value]; lia|].
  split; [unfold within, rows_to_preview; cbn [value min_value max_value]; lia|].
  split; [exact Hdefault|]. split.
  - intros k Hk. rewrite Hdefault in Hk. injection Hk as <-. lia.
  - intros v Hv. unfold rows_to_show, slider_value. rewrite Hw.
    cbn [value min_value max_value]. destruct (Z.eqb_spec len_df 5); [lia|].
    unfold within; cbn [min_value max_value].
    destruct (Z.leb_spec len_df v), (Z.leb_spec v 5); try lia. reflexivity.
Qed.

Lemma rows_to_show_few_rows_witness :
  max_value (rows_to_preview 3) = 5 /\
  value (rows_to_preview 3) = 3 /\
  rows_to_show 3 None = Ok 3.
Proof.
  destruct (rows_to_show_few_rows 3 ltac:(lia)) as (_ & Hmax & Hval & _ & Hrun & _).
  exact (conj Hmax (conj Hval Hrun)).
Defined.

(** *** Top values *)

Lemma In_distinct (v : cell) (l : list cell) : In v (distinct l) <-> In v l.
Proof.
  induction l as [|c l IH]; cbn; [tauto|].
  rewrite filter_In, IH.
  destruct (decide (v = c)) as [->|Hne]; [tauto|].
  split; [intros [?|[? _]]; auto | intros [?|?]; [congruence|auto]].
Qed.

Lemma NoDup_filter_list {A} (f : A -> bool) (l : list A) :
  List.NoDup l -> List.NoDup (List.filter f l).
Proof.
  induction 1 as [|a l Hin Hnd IH]; cbn; [constructor|].
  destruct (f a); [constructor; [|exact IH]|exact IH].
  rewrite filter_In. tauto.
Qed.

Lemma NoDup_distinct (l : list cell) : List.NoDup (distinct l).
Proof.
  induction l as [|c l IH]; cbn; constructor.
  - rewrite filter_In. destruct (decide (c = c)); [|congruence]. intros [_ H]; discriminate.
  - apply NoDup_filter_list, IH.
Qed.

Lemma occurrences_pos (v : cell) (l : list cell) : In v l -> (0 < occurrences v l)%nat.
Proof.
  unfold occurrences. induction l as [|c l IH]; cbn; [tauto|].
  intros [->|Hin].
  - destruct (decide (v = v)); [cbn; lia|congruence].
  - destruct (decide (c = v)); [cbn; lia|auto].
Qed.

(** The missing value is counted like any other. *)
Lemma occurrences_NA (l : list cell) :
  occurrences NA l = length (List.filter isna l).
Proof. reflexivity. Qed.

Lemma value_counts_perm (l cats : list cell) :
  Permutation (value_counts l cats)
              (map (fun v => (v, occurrences v l)) (distinct (l ++ cats))).
Proof. apply stable_sort_perm. Qed.





(** The body of the loop never fails: the slot of a column exists. *)
Lemma slot_lookup (n idx : nat) :
  (idx < n)%nat ->
  getitem (seq 0 (Nat.min max_columns n)) (idx mod max_columns)%nat
  = Ok (idx mod max_columns)%nat.
Proof.
  intros Hidx. unfold getitem, max_columns.
  assert (Hlt : (idx mod 3 < Nat.min 3 n)%nat).
  { pose proof (Nat.mod_upper_bound idx 3 ltac:(lia)).
    destruct (Nat.le_gt_cases 3 n); [lia|].
    rewrite Nat.mod_small by lia. lia. }
  rewrite (lookup_seq_lt 0 _ _ Hlt). reflexivity.
Qed.

(** One turn of the loop for a column that is not named "count". *)
Lemma top_values_body_shown (n idx : nat) (col : column) (page : list element) :
  (idx < n)%nat -> name col <> "count"%string ->
  top_values_body (seq 0 (Nat.min max_columns n)) (idx, col) page
  = (page ++ table_of idx col (head10 (value_counts (cells col) (categories col))),
     Continue ()).
Proof.
  intros Hidx Hname. unfold top_values_body.
  rewrite (slot_lookup n idx Hidx).
  unfold reset_index. apply String.eqb_neq in Hname. rewrite Hname.
  unfold table_of, lift, render, mbind, script_bind, mret, script_ret, raise.
  rewrite <- app_assoc. reflexivity.
Qed.

(** One turn of the loop for a column named "count": its name is shown,
    its table is not. *)
Lemma top_values_body_count (n idx : nat) (col : column) (page : list element) :
  (idx < n)%nat -> name col = "count"%string ->
  top_values_body (seq 0 (Nat.min max_columns n)) (idx, col) page
  = (page ++ [InColumn (idx mod max_columns) (Markdown "**count**")],
     Uncaught ValueError).
Proof.
  intros Hidx Hname. unfold top_values_body.
  rewrite (slot_lookup n idx Hidx), Hname. reflexivity.
Qed.

Lemma top_values_loop (n k : nat) (cols rest : list column) (page : list element) :
  (k + length cols + length rest <= n)%nat ->
  Forall (fun c => name c <> "count"%string) cols ->
  each (top_values_body (seq 0 (Nat.min max_columns n)))
       (imap (fun idx col => ((k + idx)%nat, col)) (cols ++ rest)) page
  = each (top_values_body (seq 0 (Nat.min max_columns n)))
         (imap (fun idx col => ((k + length cols + idx)%nat, col)) rest)
         (page ++ concat (imap (fun idx col =>
                                  table_of (k + idx) col
                                    (head10 (value_counts (cells col) (categories col))))
                               cols)).
Proof.
  intros Hn Hcols. revert k page Hn.
  induction Hcols as [|col cols Hcol Hcols IH]; intros k page Hn.
  - cbn [app imap concat length]. rewrite app_nil_r.
    f_equal. apply imap_ext. intros; f_equal; lia.
  - cbn [app imap each length concat] in *.
    unfold mbind at 1, script_bind at 1.
    rewrite (top_values_body_shown n (k + 0) col page ltac:(lia) Hcol).
    rewrite (imap_ext _ (fun idx col => ((S k + idx)%nat, col)) (cols ++ rest))
      by (intros; unfold compose; f_equal; lia).
    rewrite (IH (S k)) by lia. rewrite <- app_assoc.
    f_equal.
    + apply imap_ext. intros; f_equal; lia.
    + f_equal. f_equal. f_equal. apply imap_ext. intros; unfold compose; f_equal; lia.
Qed.


(** The section of the statistics when there is a numeric column. *)
Lemma summary_statistics_run (df : DataFrame) (page : list element) :
  num_cols df <> [] ->
  exists shown,
    summary_statistics df page
    = (page ++ Subheader "Summary Statistics"
            :: Markdown "**Numeric columns**"
            :: Dataframe (Described (map name (num_cols df))) :: shown,
       Continue ()).
Proof.
  intros Hnum. unfold summary_statistics, describe_number.
  destruct (num_cols df) as [|c cols]; [congruence|].
  destruct (cat_cols df) as [|d cat]; eexists;
    unfold lift, mbind, script_bind, mret, script_ret, render, raise;
    cbn -[app]; rewrite <- ?app_assoc; reflexivity.
Qed.

(** C8 (where the code departs from it): on a dataset without a numeric
    column, which may have as many non-numeric columns as one likes, the
    script is ended by the [ValueError] of [describe] right after the title of
    the statistics, before the placeholder for that very case and before the
    section of the top values: no non-numeric column gets a table. *)
Theorem top_values_not_reached (df : DataFrame) :
  num_cols df = [] ->
  run (statistics_and_top_values df)
  = ([Subheader "Summary Statistics"], Uncaught ValueError) /\
  run (summary_statistics df)
  = ([Subheader "Summary Statistics"], Uncaught ValueError).
Proof.
  intros Hnum.
  unfold statistics_and_top_values, run, summary_statistics, describe_number.
  rewrite Hnum. split; reflexivity.
Qed.

Lemma top_values_not_reached_witness :
  cat_cols names_only = columns names_only /\
  run (statistics_and_top_values names_only)
  = ([Subheader "Summary Statistics"], Uncaught ValueError).
Proof.
  split; [reflexivity|].
  apply (top_values_not_reached names_only). reflexivity.
Defined.



(** X18: a non-numeric column named "count" ends the script. The tables of
    the columns before it are shown, then its own name; its table is not,
    and nothing is shown for the columns after it: [reset_index] raises
    [ValueError]. *)
Theorem top_values_count_column (df : DataFrame)
    (before after : list column) (col : column) :
  num_cols df <> [] ->
  cat_cols df = before ++ col :: after ->
  Forall (fun c => name c <> "count"%string) before ->
  name col = "count"%string ->
  exists statistics,
    run (summary_statistics df) = (statistics, Continue ()) /\
    run (statistics_and_top_values df)
    = (statistics
       ++ Subheader "Top values (categorical)"
       :: concat (imap (fun idx c =>
                          table_of idx c
                            (head10 (value_counts (cells c) (categories c))))
                       before)
       ++ [InColumn (length before mod 3) (Markdown "**count**")],
       Uncaught ValueError).
Proof.
  intros Hnum Hcols Hbefore Hcount.
  destruct (summary_statistics_run df [] Hnum) as (shown & Hstat).
  cbn [app] in Hstat. eexists. split; [exact Hstat|].
  unfold run, statistics_and_top_values, mbind at 1, script_bind at 1.
  unfold run in Hstat. rewrite Hstat.
  unfold top_values. cbv zeta. rewrite Hcols.
  replace (0 <? length (before ++ col :: after))%nat with true
    by (symmetry; apply Nat.ltb_lt; rewrite length_app; cbn [length]; lia).
  unfold mbind at 1, script_bind at 1, render at 1.
  pose proof (top_values_loop (length (before ++ col :: after)) 0 before (col :: after)
                ((Subheader "Summary Statistics"
                  :: Markdown "**Numeric columns**"
                  :: Dataframe (Described (map name (num_cols df))) :: shown)
                 ++ [Subheader "Top values (categorical)"])
                ltac:(rewrite length_app; cbn [length]; lia) Hbefore) as Hloop.
  cbn [Nat.add] in Hloop. rewrite Hloop.
  cbn [imap each]. unfold mbind at 1, script_bind at 1.
  assert (Hlen : (0 + length before + 0 < length (before ++ col :: after))%nat)
    by (rewrite length_app; cbn [length]; lia).
  rewrite (top_values_body_count _ _ col _ Hlen Hcount).
  cbn [Nat.add]. rewrite Nat.add_0_r, <- !app_assoc. reflexivity.
Qed.

Lemma top_values_count_column_witness :
  exists statistics,
    run (statistics_and_top_values count_frame)
    = (statistics ++ [Subheader "Top values (categorical)";
                      InColumn 0 (Markdown "**count**")],
       Uncaught ValueError).
Proof.
  destruct (top_values_count_column count_frame [] []
              {| name := "count"; col_dtype := object;
                 cells := [Str "one"; Str "two"]; categories := [] |})
    as (statistics & _ & Hrun).
  - discriminate.
  - reflexivity.
  - apply Forall_nil_2.
  - reflexivity.
  - exists statistics. exact Hrun.
Defined.

(** With a numeric column the same frame is shown with its tables. *)
Example top_values_example :
  run (statistics_and_top_values example_frame)
  = ([Subheader "Summary Statistics";
      Markdown "**Numeric columns**"; Dataframe (Described ["num"]);
      Markdown "**Categorical columns**"; Dataframe (Described ["cat"]);
      Subheader "Top values (categorical)";
      InColumn 0 (Markdown "**cat**");
      InColumn 0 (Dataframe (Counts "cat" [(Str "a", 2%nat); (Str "b", 1%nat)]))]%string,
     Continue ()).
Proof. vm_compute. reflexivity. Qed.

(** A column of twelve distinct values and three missing cells: ten rows
    are shown, the missing value first. *)
Example top_values_cut :
  let col := map (fun n => Integer (Z.of_nat n)) (seq 0 12) ++ [NA; NA; NA] in
  length (head10 (value_counts col [])) = 10%nat /\
  head (head10 (value_counts col [])) = Some (NA, 3%nat).
Proof. split; reflexivity. Qed.

(** *** The unit that format_bytes picks *)

(** A normal positive float is below 1024 exactly when its exponent is
    below that of 1024. *)
Lemma flt_1024 (m : positive) (e : Z) :
  2 ^ 52 <= Zpos m < 2 ^ 53 ->
  flt (S754_finite false m e) (to_float64 1024) = (e <? -42).
Proof.
  intros Hm.
  change (to_float64 1024) with (S754_finite false 4503599627370496 (-42)).
  unfold flt, SFltb, SFcompare.
  destruct (Z.compare_spec e (-42)) as [->|Hlt|Hgt].
  - rewrite Pos.compare_cont_spec. unfold Pos.switch_Eq.
    destruct (Pos.compare_spec m 4503599627370496) as [H|H|H]; try reflexivity.
    exfalso. apply Pos2Z.pos_lt_pos in H. destruct Hm as [Hm _].
    apply (Z.lt_irrefl (Zpos m)). eapply Z.lt_le_trans; [exact H | exact Hm].
  - symmetry. apply Z.ltb_lt. exact Hlt.
  - symmetry. apply Z.ltb_ge. lia.
Qed.

(** The exponent that rounding gives: the number of bits decides it, up to
    the carry of the mantissa; an integer below 2^53 is not rounded. *)
Lemma nearest_float_exponent s a k :
  0 < a -> k <= 0 -> a < 2 ^ (1024 - k) - 2 ^ (970 - k) ->
  exists m e,
    nearest_float s a k = Ok (S754_finite s m e) /\
    2 ^ 52 <= Zpos m < 2 ^ 53 /\
    k + (Z.log2 a + 1) - 53 <= e <= 971 /\
    (a < 2 ^ 53 ->
     e = k + (Z.log2 a + 1) - 53 /\ Zpos m = a * 2 ^ (53 - (Z.log2 a + 1))).
Proof.
  intros Ha Hk Hlt.
  destruct (nearest_float_finite s a k Ha Hk Hlt) as (m & e & Hr & Hm & He).
  exists m, e. split; [exact Hr|]. split; [exact Hm|].
  pose proof (Z.log2_spec a Ha) as [Hlo Hhi].
  pose proof (Z.log2_nonneg a) as Hnn.
  unfold nearest_float, prec, emax in Hr.
  set (d := Z.log2 a + 1) in *.
  destruct (Z.leb_spec d 53) as [Hsmall|Hbig].
  - destruct (1024 - 53 <? k - (53 - d)); [discriminate|].
    injection Hr as Hm' He'. split; [lia|]. intros _. split; [lia|].
    rewrite <- Hm'. rewrite Z2Pos.id; [reflexivity|].
    apply Z.mul_pos_pos; [lia | apply Z.pow_pos_nonneg; lia].
  - assert (2 ^ 53 <= a).
    { replace (Z.log2 a) with (d - 1) in Hlo by (unfold d; lia).
      assert (2 ^ 53 <= 2 ^ (d - 1)) by (apply Z.pow_le_mono_r; lia). lia. }
    destruct (round_half_even a (2 ^ (d - 53)) =? 2 ^ 53).
    + destruct (1024 - 53 <? k + (d - 53) + 1); [discriminate|].
      injection Hr as Hm' He'. split; lia.
    + destruct (1024 - 53 <? k + (d - 53)); [discriminate|].
      injection Hr as Hm' He'. split; lia.
Qed.

(** The loop once [num_bytes] is a normal positive float with exponent
    [e]: the exponent alone decides where it stops, and what is printed is
    the same mantissa with the exponent lowered by ten for each division. *)
Lemma format_bytes_loop_exponent (m : positive) (e : Z) :
  2 ^ 52 <= Zpos m < 2 ^ 53 -> -1000 <= e <= 971 ->
  format_bytes_loop ["KiB"; "MiB"; "GiB"; "TiB"]%string (Float (S754_finite false m e))
  = if e <? -42 then
      Ok (Some (format_float_2f (S754_finite false m e) ++ " KiB")%string)
    else if e <? -32 then
      Ok (Some (format_float_2f (S754_finite false m (e - 10)) ++ " MiB")%string)
    else if e <? -22 then
      Ok (Some (format_float_2f (S754_finite false m (e - 20)) ++ " GiB")%string)
    else
      Ok (Some (format_float_2f (S754_finite false m (e - 30)) ++ " TiB")%string).
Proof.
  intros Hm He. pose proof (digits2_pos_53 m Hm) as Hd.
  cbn [format_bytes_loop lt_1024 truediv_1024 format_2f mbind result_bind].
  rewrite (flt_1024 m e Hm).
  destruct (Z.ltb_spec e (-42)) as [H1|H1]; [reflexivity|].
  cbn [orb String.eqb Ascii.eqb Bool.eqb andb].
  rewrite fdiv_1024_exact by (assumption || lia).
  rewrite (flt_1024 m (e - 10) Hm).
  destruct (Z.ltb_spec (e - 10) (-42)) as [H2|H2];
    destruct (Z.ltb_spec e (-32)) as [H2'|H2']; try lia; [reflexivity|].
  cbn [orb String.eqb Ascii.eqb Bool.eqb andb].
  rewrite fdiv_1024_exact by (assumption || lia).
  rewrite (flt_1024 m (e - 10 - 10) Hm).
  replace (e - 10 - 10) with (e - 20) by lia.
  destruct (Z.ltb_spec (e - 20) (-42)) as [H3|H3];
    destruct (Z.ltb_spec e (-22)) as [H3'|H3']; try lia; [reflexivity|].
  cbn [orb String.eqb Ascii.eqb Bool.eqb andb].
  rewrite fdiv_1024_exact by (assumption || lia).
  replace (e - 20 - 10) with (e - 30) by lia.
  rewrite orb_true_r. reflexivity.
Qed.

(** The first division of a count of at least 1024: a normal float whose
    exponent follows from the number of bits of the count. *)
Lemma first_division (n : Z) :
  1024 <= n < 2 ^ 1034 - 2 ^ 980 ->
  exists m e,
    truediv_1024 (Int n) = Ok (Float (S754_finite false m e)) /\
    2 ^ 52 <= Zpos m < 2 ^ 53 /\
    Z.log2 n - 62 <= e <= 971 /\
    (n < 2 ^ 53 -> e = Z.log2 n - 62 /\ Zpos m = n * 2 ^ (52 - Z.log2 n)).
Proof.
  intros Hn.
  destruct (nearest_float_exponent false n (-10)) as (m & e & Hr & Hm & He & Hs);
    [lia | lia | exact (proj2 Hn) |].
  exists m, e. split; [|split; [exact Hm|split; [lia|]]].
  - cbn [truediv_1024]. rewrite scaled_int_nearest by lia.
    destruct n as [|p|p]; [lia| |lia]. rewrite Hr. reflexivity.
  - intros Hlt. destruct (Hs Hlt) as [-> ->]. split; [lia|].
    f_equal. f_equal. lia.
Qed.

(** X8: the unit is picked by the size of the count: "B" below 1024, "KiB"
    below 1024^2, "MiB" below 1024^3, "GiB" below 1024^4 and "TiB" from there
    on. Rounding in the first division never moves a count across one of
    these bounds. *)
Theorem format_bytes_unit (n : Z) :
  0 <= n < 2 ^ 1034 - 2 ^ 980 ->
  exists text unit,
    units !! unit_index n = Some unit /\
    two_decimals text /\
    format_bytes n = Ok (Some (text ++ " " ++ unit)%string).
Proof.
  intros Hn. unfold unit_index.
  destruct (Z.ltb_spec n 1024) as [Hsmall|Hbig].
  - destruct (format_bytes_nonneg n Hn)
      as (k & unit & x & text & Hk & _ & Hbefore & _ & _ & Htwo & Hfmt).
    destruct k as [|k].
    + exists text, unit. auto.
    + destruct (Hbefore 0%nat ltac:(lia)) as (y & Hy & Hlt).
      cbn in Hy. injection Hy as <-. cbn in Hlt. apply Z.ltb_ge in Hlt. lia.
  - destruct (first_division n ltac:(lia)) as (m & e & Hdiv & Hm & He & Hs).
    assert (Hloop : format_bytes n
                    = format_bytes_loop ["KiB"; "MiB"; "GiB"; "TiB"]%string
                        (Float (S754_finite false m e))).
    { unfold format_bytes, units. cbn [format_bytes_loop lt_1024].
      replace (n <? 1024) with false by (symmetry; apply Z.ltb_ge; lia).
      cbn [orb String.eqb Ascii.eqb Bool.eqb andb]. rewrite Hdiv. reflexivity. }
    pose proof (Z.log2_nonneg n) as Hnn.
    rewrite Hloop, format_bytes_loop_exponent by (assumption || lia).
    assert (E2 : 1024 ^ 2 = 2 ^ 20) by reflexivity.
    assert (E3 : 1024 ^ 3 = 2 ^ 30) by reflexivity.
    assert (E4 : 1024 ^ 4 = 2 ^ 40) by reflexivity.
    rewrite E2, E3, E4.
    assert (Hlog : forall b, 0 <= b -> (n < 2 ^ b <-> Z.log2 n < b))
      by (intros b Hb; apply Z.log2_lt_pow2; lia).
    assert (H53 : 2 ^ 53 <= n \/ e = Z.log2 n - 62).
    { destruct (Z.le_gt_cases (2 ^ 53) n) as [H|H]; [left; exact H|right].
      apply Hs. lia. }
    assert (H53' : 2 ^ 53 <= n -> 53 <= Z.log2 n).
    { intros H. destruct (Z.le_gt_cases 53 (Z.log2 n)) as [|Hc]; [assumption|].
      apply Hlog in Hc; lia. }
    destruct (Z.ltb_spec e (-42)) as [H1|H1];
      [|destruct (Z.ltb_spec e (-32)) as [H2|H2];
        [|destruct (Z.ltb_spec e (-22)) as [H3|H3]]];
      destruct (Z.ltb_spec n (2 ^ 20)) as [G1|G1];
      destruct (Z.ltb_spec n (2 ^ 30)) as [G2|G2];
      destruct (Z.ltb_spec n (2 ^ 40)) as [G3|G3];
      try (apply Hlog in G1; [|lia]); try (apply Hlog in G2; [|lia]);
      try (apply Hlog in G3; [|lia]);
      try (assert (~ Z.log2 n < 20) by (intros Hc; apply Hlog in Hc; lia));
      try (assert (~ Z.log2 n < 30) by (intros Hc; apply Hlog in Hc; lia));
      try (assert (~ Z.log2 n < 40) by (intros Hc; apply Hlog in Hc; lia));
      try (exfalso; destruct H53 as [H53|H53]; [apply H53' in H53|]; lia);
      (eexists; eexists; split; [reflexivity|];
       split; [apply format_float_2f_finite | reflexivity]).
Qed.

Lemma format_bytes_unit_witness :
  exists text, format_bytes (5 * 1024 ^ 3 + 7) = Ok (Some (text ++ " GiB")%string).
Proof.
  destruct (format_bytes_unit (5 * 1024 ^ 3 + 7)) as (text & unit & Hu & _ & Hf).
  - split; vm_compute; congruence.
  - vm_compute in Hu. injection Hu as <-. exists text. exact Hf.
Defined.

(** A float that holds a whole number [j] prints as [j] followed by
    ".00". *)
Lemma hundredths_whole (m : positive) (j s : Z) :
  0 <= s -> Zpos m = j * 2 ^ s -> hundredths_of m (- s) = j * 100.
Proof.
  intros Hs Hm. unfold hundredths_of.
  assert (Hp : 0 < 2 ^ s) by (apply Z.pow_pos_nonneg; lia).
  destruct (Z.leb_spec 0 (- s)) as [H0|H0].
  - replace s with 0 in * by lia. change (- 0) with 0. rewrite Hm. cbn. lia.
  - unfold round_half_even. rewrite Z.opp_involutive, Hm.
    replace (j * 2 ^ s * 100) with (j * 100 * 2 ^ s) by lia.
    rewrite Z.mod_mul, Z.div_mul by lia.
    replace (2 ^ s <? 2 * 0) with false by (symmetry; apply Z.ltb_ge; lia).
    replace (2 * 0 =? 2 ^ s) with false by (symmetry; apply Z.eqb_neq; lia).
    reflexivity.
Qed.

Lemma fixed2_whole (j : Z) : fixed2 (j * 100) = (decimal j ++ ".00")%string.
Proof.
  unfold fixed2. rewrite Z.div_mul by lia.
  replace (j * 100 / 10) with (j * 10)
    by (replace (j * 100) with (j * 10 * 10) by lia; rewrite Z.div_mul; lia).
  replace (j * 100 mod 10) with 0
    by (replace (j * 100) with (j * 10 * 10) by lia; rewrite Z.mod_mul; lia).
  rewrite Z.mod_mul by lia. reflexivity.
Qed.

Lemma format_float_2f_whole (m : positive) (j s : Z) :
  0 <= s -> Zpos m = j * 2 ^ s ->
  format_float_2f (S754_finite false m (- s)) = (decimal j ++ ".00")%string.
Proof.
  intros Hs Hm. cbn [format_float_2f sign_prefix].
  rewrite (hundredths_whole m j s Hs Hm), fixed2_whole. reflexivity.
Qed.

Lemma whole_division (j K : Z) :
  1 <= j < 1024 -> 10 <= K <= 40 ->
  exists m,
    truediv_1024 (Int (j * 2 ^ K))
    = Ok (Float (S754_finite false m (K + Z.log2 j - 62))) /\
    2 ^ 52 <= Zpos m < 2 ^ 53 /\
    0 <= Z.log2 j <= 9 /\
    Zpos m = j * 2 ^ (52 - Z.log2 j).
Proof.
  intros Hj HK.
  assert (Hl : 0 <= Z.log2 j <= 9).
  { split; [apply Z.log2_nonneg|].
    enough (Z.log2 j < 10) by lia. apply Z.log2_lt_pow2; [lia|]. cbn. lia. }
  assert (HlK : 2 ^ 10 <= 2 ^ K <= 2 ^ 40)
    by (split; apply Z.pow_le_mono_r; lia).
  assert (E10 : 2 ^ 10 = 1024) by reflexivity.
  assert (E40 : 2 ^ 40 = 1099511627776) by reflexivity.
  assert (E53 : 2 ^ 53 = 9007199254740992) by reflexivity.
  assert (Hn : 1024 <= j * 2 ^ K < 2 ^ 53) by nia.
  destruct (first_division (j * 2 ^ K)) as (m & e & Hdiv & Hm & _ & Hs).
  { split; [lia|]. eapply Z.lt_trans; [exact (proj2 Hn)|]. vm_compute. reflexivity. }
  destruct (Hs (proj2 Hn)) as [He Hmz].
  rewrite Z.log2_mul_pow2 in He, Hmz by lia.
  exists m. split; [|split; [exact Hm|split; [exact Hl|]]].
  - rewrite Hdiv, He. reflexivity.
  - rewrite Hmz, <- Z.mul_assoc, <- Z.pow_add_r by lia.
    f_equal. f_equal. lia.
Qed.

Lemma format_bytes_divided_once (n : Z) (f : float) :
  1024 <= n -> truediv_1024 (Int n) = Ok (Float f) ->
  format_bytes n
  = format_bytes_loop ["KiB"; "MiB"; "GiB"; "TiB"]%string (Float f).
Proof.
  intros Hn Hdiv. unfold format_bytes, units. cbn [format_bytes_loop lt_1024].
  replace (n <? 1024) with false by (symmetry; apply Z.ltb_ge; lia).
  cbn [orb String.eqb Ascii.eqb Bool.eqb andb]. rewrite Hdiv. reflexivity.
Qed.

Lemma format_bytes_whole_scaled (j k : Z) :
  1 <= j < 1024 -> 1 <= k <= 4 ->
  format_bytes (j * 2 ^ (10 * k))
  = Ok (Some ((decimal j ++ ".00")
              ++ (if (k =? 1)%Z then " KiB"
                  else if (k =? 2)%Z then " MiB"
                  else if (k =? 3)%Z then " GiB"
                  else " TiB"))%string).
Proof.
  intros Hj Hk.
  destruct (whole_division j (10 * k) Hj ltac:(lia)) as (m & Hdiv & Hm & Hl & Hmz).
  assert (Hn : 1024 <= j * 2 ^ (10 * k)).
  { assert (2 ^ 10 <= 2 ^ (10 * k)) by (apply Z.pow_le_mono_r; lia).
    assert (E10 : 2 ^ 10 = 1024) by reflexivity. nia. }
  rewrite (format_bytes_divided_once _ _ Hn Hdiv).
  rewrite format_bytes_loop_exponent by (assumption || lia).
  assert (Hw : forall e, e = - (52 - Z.log2 j) ->
             format_float_2f (S754_finite false m e) = (decimal j ++ ".00")%string).
  { intros e ->. apply (format_float_2f_whole m j (52 - Z.log2 j)); [lia|exact Hmz]. }
  destruct (Z.eqb_spec k 1) as [K1|K1];
    [|destruct (Z.eqb_spec k 2) as [K2|K2];
      [|destruct (Z.eqb_spec k 3) as [K3|K3]]];
    destruct (Z.ltb_spec (10 * k + Z.log2 j - 62) (-42)) as [H1|H1]; try lia;
    try (rewrite Hw by lia; reflexivity);
    destruct (Z.ltb_spec (10 * k + Z.log2 j - 62) (-32)) as [H2|H2]; try lia;
    try (rewrite Hw by lia; reflexivity);
    destruct (Z.ltb_spec (10 * k + Z.log2 j - 62) (-22)) as [H3|H3]; try lia;
    rewrite Hw by lia; reflexivity.
Qed.

(** X9: a whole number of units prints as that number: [j * 1024^k] bytes, for
    [1 <= j < 1024] and a unit [k] of the list, give [j] followed by ".00"
    and the [k]-th unit ("1.00 KiB" for 1024, "1023.00 B" for 1023,
    "1.00 TiB" for 1024^4). *)
Theorem format_bytes_whole (j : Z) (k : nat) (unit : string) :
  1 <= j < 1024 -> units !! k = Some unit ->
  format_bytes (j * 1024 ^ Z.of_nat k)
  = Ok (Some ((decimal j ++ ".00") ++ " " ++ unit)%string).
Proof.
  intros Hj Hu.
  destruct k as [|k].
  { injection Hu as <-. rewrite Z.mul_1_r.
    destruct (nearest_float_exponent false j 0) as (m & e & Hr & Hm & He & Hs);
      [lia | lia | |].
    { eapply Z.lt_trans with 1024; [lia|]. vm_compute. reflexivity. }
    destruct Hs as [-> Hmz].
    { eapply Z.lt_trans with 1024; [lia|]. vm_compute. reflexivity. }
    assert (Hl : 0 <= Z.log2 j <= 9).
    { split; [apply Z.log2_nonneg|].
      enough (Z.log2 j < 10) by lia. apply Z.log2_lt_pow2; [lia|]. cbn. lia. }
    unfold format_bytes, units. cbn [format_bytes_loop lt_1024].
    replace (j <? 1024) with true by (symmetry; apply Z.ltb_lt; lia).
    cbn [orb format_2f]. unfold float_of_int.
    rewrite scaled_int_nearest by lia.
    assert (Hfmt : format_float_2f (S754_finite false m (0 + (Z.log2 j + 1) - 53))
                   = (decimal j ++ ".00")%string).
    { replace (0 + (Z.log2 j + 1) - 53) with (- (53 - (Z.log2 j + 1))) by lia.
      apply format_float_2f_whole; [lia|exact Hmz]. }
    destruct j as [|p|p]; [lia| |lia]. rewrite Hr. cbn [mbind result_bind].
    rewrite Hfmt. reflexivity. }
  assert (Hk : (k < 4)%nat).
  { apply lookup_lt_Some in Hu. cbn in Hu. lia. }
  replace (1024 ^ Z.of_nat (S k)) with (2 ^ (10 * Z.of_nat (S k)))
    by (rewrite Z.pow_mul_r by lia; reflexivity).
  rewrite format_bytes_whole_scaled by lia.
  destruct k as [|[|[|[|k]]]]; [..|lia]; injection Hu as <-; reflexivity.
Qed.

Lemma format_bytes_whole_witness :
  format_bytes (1024 ^ 4) = Ok (Some "1.00 TiB"%string).
Proof.
  apply (format_bytes_whole 1 4 "TiB"%string); [lia | reflexivity].
Defined.

(** *** The preview *)

Lemma head_rows_bounds (df : DataFrame) (n : Z) :
  0 <= len df -> 0 <= head_rows df n <= len df.
Proof. intros H. unfold head_rows. destruct (Z.leb_spec 0 n); lia. Qed.

Lemma head_df_columns (df : DataFrame) (n : Z) :
  well_formed df ->
  Forall (fun c => Z.of_nat (length (cells c)) = head_rows df n)
         (columns (head_df df n)).
Proof.
  intros [Hlen Hcols]. pose proof (head_rows_bounds df n Hlen) as Hb.
  cbn [head_df columns]. apply Forall_map.
  eapply Forall_impl; [exact Hcols|]. intros c Hc. cbn [cells].
  cbv beta in Hc. rewrite length_take. lia.
Qed.

(** X11: [df.head(n)] of a frame whose columns all have one cell per row is
    such a frame again, with the names and types of the columns kept; it has
    [min(n, len(df))] rows for [n >= 0] and [max(0, len(df) + n)] rows for a
    negative [n], and it is the frame itself once [n] reaches the row count. *)
Theorem head_df_well_formed (df : DataFrame) (n : Z) :
  well_formed df ->
  well_formed (head_df df n) /\
  map name (columns (head_df df n)) = map name (columns df) /\
  map col_dtype (columns (head_df df n)) = map col_dtype (columns df) /\
  (0 <= n -> len (head_df df n) = Z.min n (len df)) /\
  (n < 0 -> len (head_df df n) = Z.max 0 (len df + n)) /\
  (len df <= n -> head_df df n = df).
Proof.
  intros Hwf. pose proof Hwf as [Hlen Hcols].
  pose proof (head_rows_bounds df n Hlen) as Hb.
  split; [|split; [|split; [|split; [|split]]]].
  - split; [cbn [head_df len]; lia | exact (head_df_columns df n Hwf)].
  - cbn [head_df columns]. rewrite map_map. reflexivity.
  - cbn [head_df columns]. rewrite map_map. reflexivity.
  - intros Hn. cbn [head_df len]. unfold head_rows.
    destruct (Z.leb_spec 0 n); [reflexivity|lia].
  - intros Hn. cbn [head_df len]. unfold head_rows.
    destruct (Z.leb_spec 0 n); [lia|reflexivity].
  - intros Hn. unfold head_df.
    assert (Hrows : head_rows df n = len df)
      by (unfold head_rows; destruct (Z.leb_spec 0 n); lia).
    rewrite Hrows. clear Hwf Hb Hrows.
    destruct df as [cols l]. cbn [columns len] in *. f_equal.
    induction Hcols as [|c cols Hc Hcols IH]; [reflexivity|].
    cbn [map]. rewrite IH. f_equal.
    destruct c as [nm dt cs cats]. cbn [name col_dtype cells categories] in *.
    rewrite take_ge by lia. reflexivity.
Qed.

Lemma head_df_well_formed_witness :
  len (head_df six_rows 4) = 4 /\ head_df six_rows 9 = six_rows.
Proof.
  assert (Hwf : well_formed six_rows).
  { split; [cbn; lia|]. repeat (apply Forall_cons_2; [reflexivity|]). apply Forall_nil_2. }
  destruct (head_df_well_formed six_rows 4 Hwf) as (_ & _ & _ & H4 & _).
  destruct (head_df_well_formed six_rows 9 Hwf) as (_ & _ & _ & _ & _ & H9).
  split; [apply H4; lia | apply H9; cbn; lia].
Defined.

(** X12: for a frame of more than five rows the preview shows exactly the
    number of rows the slider returns: between 5 and [min(1000, len(df))]
    rows, and [min(50, len(df))] rows while the slider has not been moved.
    For a frame of exactly five rows the slider raises and nothing is
    previewed. *)
Theorem preview_rows (df : DataFrame) (chosen : option Z) :
  well_formed df ->
  (5 < len df ->
   exists k,
     rows_to_show (len df) chosen = Ok k /\
     preview df chosen = Ok (head_df df k) /\
     well_formed (head_df df k) /\
     len (head_df df k) = k /\
     5 <= k <= Z.min 1000 (len df) /\
     (chosen = None -> k = Z.min 50 (len df))) /\
  (len df = 5 -> preview df chosen = Raise StreamlitInvalidMinMaxError).
Proof.
  intros Hwf. split.
  - intros Hlen.
    destruct (rows_to_show_enough_rows (len df) chosen Hlen)
      as (_ & (k & Hshow & Hk) & _).
    destruct (rows_to_show_enough_rows (len df) None Hlen) as (_ & _ & Hdefault).
    assert (Hrows : head_rows df k = k)
      by (unfold head_rows; destruct (Z.leb_spec 0 k); lia).
    exists k. split; [exact Hshow|]. split; [|split; [|split; [|split]]].
    + unfold preview. rewrite Hshow. reflexivity.
    + split; [cbn [head_df len]; lia | apply head_df_columns, Hwf].
    + exact Hrows.
    + lia.
    + intros ->. rewrite Hdefault in Hshow. congruence.
  - intros Hlen. unfold preview. rewrite Hlen, rows_to_show_five_rows. reflexivity.
Qed.

Lemma preview_rows_witness :
  (exists k, preview six_rows (Some 5) = Ok (head_df six_rows k) /\
             len (head_df six_rows k) = k /\ 5 <= k <= 6) /\
  preview (head_df six_rows 5) None = Raise StreamlitInvalidMinMaxError.
Proof.
  assert (Hwf : well_formed six_rows).
  { split; [cbn; lia|]. repeat (apply Forall_cons_2; [reflexivity|]). apply Forall_nil_2. }
  assert (Hwf5 : well_formed (head_df six_rows 5)).
  { split; [cbn; lia|]. repeat (apply Forall_cons_2; [reflexivity|]). apply Forall_nil_2. }
  split.
  - destruct (proj1 (preview_rows six_rows (Some 5) Hwf) ltac:(cbn; lia))
      as (k & _ & Hp & _ & Hl & Hk & _).
    exists k. split; [exact Hp|]. split; [exact Hl|]. cbn [len six_rows] in Hk. lia.
  - apply (proj2 (preview_rows (head_df six_rows 5) None Hwf5)). reflexivity.
Defined.

(** *** The percentages at the two ends *)

(** A row count is a float that is a positive number. *)
Lemma to_float64_finite (n : Z) :
  0 < n < 2 ^ 1024 - 2 ^ 970 ->
  exists m e, to_float64 n = S754_finite false m e.
Proof.
  intros Hn.
  destruct (nearest_float_exponent false n 0) as (m & e & Hr & _);
    [lia | lia | exact (proj2 Hn) |].
  pose proof (scaled_int_nearest n 0 ltac:(lia)) as Hs.
  destruct n as [|p|p]; [lia| |lia]. rewrite Hr in Hs.
  unfold scaled_int in Hs. fold (to_float64 (Zpos p)) in Hs.
  exists m, e. destruct (to_float64 (Zpos p)); congruence.
Qed.

(** A number divided by itself is 1.0. *)
Lemma fdiv_self (m : positive) (e : Z) :
  fdiv (S754_finite false m e) (S754_finite false m e) = to_float64 1.
Proof.
  unfold fdiv, SFdiv, SFdiv_core_binary.
  cbn [Zdigits2]. unfold fexp, emin, prec, emax.
  replace (Z.min (Z.max (Zpos (digits2_pos m) + e - (Zpos (digits2_pos m) + e) - 53)
                        (3 - 1024 - 53)) (e - e))
    with (-53) by lia.
  replace (e - e - -53) with 53 by lia.
  assert (Hde : IntDef.Z.div_eucl (Z.shiftl (Zpos m) 53) (Zpos m)
                = (9007199254740992, 0)).
  { change IntDef.Z.div_eucl with Z.div_eucl.
    assert (Hq : Z.shiftl (Zpos m) 53 / Zpos m = 9007199254740992)
      by (rewrite Z.shiftl_mul_pow2, Z.mul_comm, Z.div_mul by lia; reflexivity).
    assert (Hr : Z.shiftl (Zpos m) 53 mod Zpos m = 0)
      by (rewrite Z.shiftl_mul_pow2, Z.mul_comm, Z.mod_mul by lia; reflexivity).
    unfold Z.div in Hq. unfold Z.modulo in Hr.
    destruct (Z.div_eucl (Z.shiftl (Zpos m) 53) (Zpos m)) as [q r].
    subst q r. reflexivity. }
  rewrite Hde.
  assert (Hloc : new_location (Zpos m) 0 = loc_Exact).
  { unfold new_location, new_location_even, new_location_odd.
    destruct (Z.even (Zpos m)); reflexivity. }
  cbv beta iota. rewrite Hloc. vm_compute. reflexivity.
Qed.

(** X13: the two ends of the percentage: a column without a missing cell is
    reported with the float 0.0 and a column whose cells are all missing with
    the float 100.0, exactly, before and after [.round(2)], whatever the
    (positive) row count. *)
Theorem missing_pct_extremes (df : DataFrame) (c : column) :
  0 < len df < 2 ^ 1024 - 2 ^ 970 ->
  (missing_of c = 0 ->
   missing_pct_of df c = Float (S754_zero false) /\
   round2 (missing_pct_of df c) = Float (S754_zero false)) /\
  (missing_of c = len df ->
   missing_pct_of df c = Float (to_float64 100) /\
   round2 (missing_pct_of df c) = Float (to_float64 100)).
Proof.
  intros Hlen.
  destruct (to_float64_finite (len df) Hlen) as (m & e & Hf).
  unfold missing_pct_of.
  replace (len df =? 0) with false by (symmetry; apply Z.eqb_neq; lia).
  split; intros ->.
  - rewrite Hf. change (to_float64 0) with (S754_zero false).
    assert (Hz : fmul (fillna0 (fdiv (S754_zero false) (S754_finite false m e)))
                      (to_float64 100)
                 = S754_zero false) by (vm_compute; reflexivity).
    rewrite Hz. split; [reflexivity | vm_compute; reflexivity].
  - rewrite Hf, fdiv_self.
    assert (Hz : fmul (fillna0 (to_float64 1)) (to_float64 100) = to_float64 100)
      by (vm_compute; reflexivity).
    rewrite Hz. split; [reflexivity | vm_compute; reflexivity].
Qed.

Lemma missing_pct_extremes_witness :
  let a := {| name := "a"; col_dtype := object;
              cells := [Str "x"; Str "y"; Str "x"]; categories := [] |} in
  let b := {| name := "b"; col_dtype := float64;
              cells := [NA; NA; NA]; categories := [] |} in
  let df := {| columns := [a; b]; len := 3 |} in
  round2 (missing_pct_of df a) = Float (S754_zero false) /\
  round2 (missing_pct_of df b) = Float (to_float64 100).
Proof.
  intros a b df.
  assert (Hlen : 0 < len df < 2 ^ 1024 - 2 ^ 970)
    by (cbn [len df]; split; [lia|vm_compute; reflexivity]).
  split.
  - destruct (missing_pct_extremes df a Hlen) as [H0 _].
    exact (proj2 (H0 eq_refl)).
  - destruct (missing_pct_extremes df b Hlen) as [_ H100].
    exact (proj2 (H100 eq_refl)).
Defined.

(** *** Columns that miss the same number of cells *)

Lemma lex3_refl a : lex3 a a = Eq.
Proof. destruct a as [[a1 a2] a3]; cbn. rewrite !Z.compare_refl. reflexivity. Qed.

Lemma num_compare_refl (v : num) : num_compare v v <> Some Gt.
Proof.
  destruct v as [n|f]; cbn [num_compare].
  - rewrite Z.compare_refl. discriminate.
  - destruct (decide (f = S754_nan)) as [->|Hf]; [discriminate|].
    rewrite (SFcompare_rank f f Hf Hf), lex3_refl. discriminate.
Qed.

(** X14: when all columns miss the same number of cells (none, in a complete
    dataset) their percentages are the same, and the report lists the columns
    in ascending order of name, not in the order of the file. *)
Theorem schema_report_equal_missing (df : DataFrame) :
  (forall c1 c2, In c1 (columns df) -> In c2 (columns df) ->
                 missing_of c1 = missing_of c2) ->
  StronglySorted (fun r1 r2 => String.leb (column_ r1) (column_ r2) = true)
                 (schema_report df) /\
  Permutation (map column_ (schema_report df)) (map name (columns df)).
Proof.
  intros Hsame.
  assert (Hperm : Permutation (schema_report df) (schema_df df))
    by apply stable_sort_perm.
  split.
  - apply (StronglySorted_weaken row_le _
             (fun r => exists c, In c (columns df) /\
                                 missing_pct_ r = round2 (missing_pct_of df c))).
    + intros x y (cx & Hcx & Hx) (cy & Hcy & Hy) [Hgt|[_ Hle]]; [exfalso|exact Hle].
      unfold num_gt in Hgt. rewrite Hx, Hy in Hgt.
      unfold missing_pct_of in Hgt. rewrite (Hsame cx cy Hcx Hcy) in Hgt.
      exact (num_compare_refl _ Hgt).
    + rewrite Hperm, schema_df_rows. apply Forall_forall. intros r Hr.
      apply list_elem_of_In, in_map_iff in Hr as (c & <- & Hc).
      exists c. split; [exact Hc | reflexivity].
    + apply schema_report_StronglySorted.
  - rewrite Hperm, schema_df_rows, map_map. reflexivity.
Qed.

Lemma schema_report_equal_missing_witness :
  StronglySorted (fun r1 r2 => String.leb (column_ r1) (column_ r2) = true)
    (schema_report
       {| columns := [ {| name := "tag"; col_dtype := object;
                          cells := [Str "a"; Str "b"]; categories := [] |};
                       {| name := "id"; col_dtype := int64;
                          cells := [Integer 1; Integer 2]; categories := [] |} ];
          len := 2 |}).
Proof.
  apply schema_report_equal_missing.
  intros c1 c2 [<-|[<-|[]]] [<-|[<-|[]]]; reflexivity.
Defined.

(** *** The counts of a table *)

Lemma list_sum_zero {A} (d : list A) : list_sum (map (fun _ => 0%nat) d) = 0%nat.
Proof. induction d as [|a d IH]; [reflexivity | exact IH]. Qed.

Lemma list_sum_plus {A} (f g : A -> nat) (d : list A) :
  list_sum (map (fun v => (f v + g v)%nat) d)
  = (list_sum (map f d) + list_sum (map g d))%nat.
Proof.
  induction d as [|a d IH]; [reflexivity|].
  unfold list_sum in *. cbn [map fold_right]. rewrite IH. lia.
Qed.

Lemma list_sum_absent (c : cell) (d : list cell) :
  ~ In c d ->
  list_sum (map (fun v => if decide (c = v) then 1%nat else 0%nat) d) = 0%nat.
Proof.
  induction d as [|a d IH]; intros Hn; [reflexivity|].
  unfold list_sum in *. cbn [map fold_right].
  rewrite IH by (intros H; apply Hn; right; exact H).
  destruct (decide (c = a)) as [->|]; [|reflexivity].
  exfalso. apply Hn. left. reflexivity.
Qed.

(** Among values without repetition, a value that occurs is met once. *)
Lemma list_sum_present (c : cell) (d : list cell) :
  List.NoDup d -> In c d ->
  list_sum (map (fun v => if decide (c = v) then 1%nat else 0%nat) d) = 1%nat.
Proof.
  induction 1 as [|a d Ha Hd IH]; intros Hin; [destruct Hin|].
  change (((if decide (c = a) then 1 else 0)
           + list_sum (map (fun v => if decide (c = v) then 1%nat else 0%nat) d))%nat
          = 1%nat).
  destruct (decide (c = a)) as [->|Hne].
  - rewrite (list_sum_absent a d Ha). reflexivity.
  - destruct Hin as [->|Hin]; [congruence|]. rewrite (IH Hin). reflexivity.
Qed.

Lemma sum_occurrences (d l : list cell) :
  List.NoDup d -> (forall v, In v l -> In v d) ->
  list_sum (map (fun v => occurrences v l) d) = length l.
Proof.
  intros Hd. induction l as [|c l IH]; intros Hin.
  - apply list_sum_zero.
  - rewrite (map_ext _ (fun v => ((if decide (c = v) then 1 else 0)
                                  + occurrences v l)%nat)).
    + rewrite (list_sum_plus (fun v => if decide (c = v) then 1%nat else 0%nat)
                             (fun v => occurrences v l)),
        (list_sum_present c d Hd), IH.
      * reflexivity.
      * intros v Hv. apply Hin. right. exact Hv.
      * apply Hin. left. reflexivity.
    + intros v. unfold occurrences. cbn [List.filter].
      destruct (decide (c = v)); reflexivity.
Qed.

Lemma list_sum_take (n : nat) (l : list nat) :
  (list_sum (take n l) <= list_sum l)%nat.
Proof.
  rewrite <- (take_drop n l) at 2. rewrite list_sum_app. lia.
Qed.

(** X15: the counts of [value_counts(dropna=False)] add up to the number of
    rows: every cell, missing or not, is counted once. The table shown is cut
    at ten rows: its counts add up to the number of rows when the column has at
    most ten distinct values, and to no more than that otherwise. *)
Theorem value_counts_total (l cats : list cell) :
  list_sum (map snd (value_counts l cats)) = length l /\
  (list_sum (map snd (head10 (value_counts l cats))) <= length l)%nat /\
  ((length (distinct (l ++ cats)) <= 10)%nat ->
   list_sum (map snd (head10 (value_counts l cats))) = length l).
Proof.
  assert (Htotal : list_sum (map snd (value_counts l cats)) = length l).
  { rewrite (value_counts_perm l cats), map_map. cbn [snd].
    apply sum_occurrences; [apply NoDup_distinct|].
    intros v Hv. apply In_distinct, in_or_app. left. exact Hv. }
  split; [exact Htotal|split].
  - unfold head10. rewrite <- Htotal, <- (firstn_map snd). apply list_sum_take.
  - intros Hfew. unfold head10. rewrite take_ge; [exact Htotal|].
    rewrite (Permutation_length (value_counts_perm l cats)), length_map. exact Hfew.
Qed.

Lemma value_counts_total_witness :
  list_sum (map snd (head10 (value_counts
     [Str "a"; NA; Str "b"; Str "a"; NA; Str "a"] []))) = 6%nat.
Proof.
  apply (value_counts_total [Str "a"; NA; Str "b"; Str "a"; NA; Str "a"] []).
  vm_compute. lia.
Defined.

(** *** The loader, all paths *)

(** X10: what a run with an upload does is fixed by two results: that of
    the strict parse of the stream from its position and, after a decode
    error only, that of the lossy parse of the whole stream from its first
    byte, wherever the strict parse stopped reading. The summary runs on the
    dataset of whichever parse succeeds; the lossy parse is not tried after
    another exception, which is shown as one error element before the run is
    halted; an exception of the lossy parse is shown nowhere. *)
Theorem load_outcome {DataFrame : Type}
    (parse : encoding_errors -> list Byte.byte -> result DataFrame * nat)
    (str : exn -> string) (summary : DataFrame -> script ()) (f : UploadedFile) :
  run (main parse str summary (Some f))
  = match fst (parse Strict (drop (position f) (content f))) with
    | Ok df => summary df header
    | Raise exc =>
        if is_UnicodeDecodeError exc then
          match fst (parse Ignore (content f)) with
          | Ok df => summary df header
          | Raise exc' => (header, Uncaught exc')
          end
        else (header ++ [Error ("Could not read the CSV: " ++ str exc)], Stopped)
    end.
Proof.
  destruct (fst (parse Strict (drop (position f) (content f)))) as [df|exc] eqn:Hstrict.
  - apply load_strict, Hstrict.
  - destruct (is_UnicodeDecodeError exc) eqn:Hexc.
    + assert (exc = UnicodeDecodeError) as -> by (destruct exc; cbn in Hexc; congruence).
      destruct (fst (parse Ignore (content f))) as [df|exc'] eqn:Hlossy.
      * apply load_fallback; assumption.
      * unfold run, main, load. unfold read_csv at 1.
        destruct (parse Strict (drop (position f) (content f))) as [r used].
        cbn in Hstrict. subst r. cbn [is_UnicodeDecodeError].
        match goal with |- context [read_csv parse (seek ?g 0) Ignore] =>
          pose proof (read_csv_after_seek parse g Ignore) as Hr;
          destruct (read_csv parse (seek g 0) Ignore) as [r' g'] end.
        cbn [fst content] in Hr. rewrite Hlossy in Hr. subst r'. reflexivity.
    + apply load_error_halts; assumption.
Qed.

(** *** The counts of the overview *)

Example thousands_examples :
  map thousands [0; 5; 999; 1000; 12345; 123456; 1234567; -1234]
  = ["0"; "5"; "999"; "1,000"; "12,345"; "123,456"; "1,234,567"; "-1,234"]%string.
Proof. reflexivity. Qed.

Lemma filter_no_comma (l : list ascii) :
  Forall (fun c => c <> ","%char) l ->
  List.filter (fun c => negb (Ascii.eqb c ",")) l = l.
Proof.
  induction 1 as [|a l Ha Hl IH]; [reflexivity|]. cbn [List.filter].
  apply Ascii.eqb_neq in Ha. rewrite Ha, IH. reflexivity.
Qed.

(** What [group3] does to digits: taking the commas out gives the digits
    back, the commas stand at every fourth place, and there is one comma for
    every three digits that are followed by another digit. *)
Lemma group3_spec (l : list ascii) :
  Forall (fun c => c <> ","%char) l ->
  List.filter (fun c => negb (Ascii.eqb c ",")) (group3 l) = l /\
  (forall i c, group3 l !! i = Some c -> (c = ","%char <-> i mod 4 = 3)%nat) /\
  length (group3 l) = (length l + (length l - 1) / 3)%nat.
Proof.
  remember (length l) as n eqn:Hn. revert l Hn.
  induction n as [n IH] using (well_founded_induction Nat.lt_wf_0).
  intros l Hn Hl.
  destruct l as [|a [|b [|c [|d rest]]]].
  1-4: (split; [apply filter_no_comma, Hl|split; [|subst n; reflexivity]];
        intros i x Hi; cbn [group3] in Hi;
        assert (Hx : x <> ","%char)
          by (rewrite Forall_forall in Hl; apply Hl; eapply list_elem_of_lookup_2, Hi);
        apply lookup_lt_Some in Hi; cbn [length] in Hi;
        split; [intros ->; congruence|];
        intros Hmod; rewrite Nat.mod_small in Hmod by lia; lia).
  apply Forall_cons_1 in Hl as [Ha Hl]. apply Forall_cons_1 in Hl as [Hb Hl].
  apply Forall_cons_1 in Hl as [Hc Hl].
  destruct (IH (length (d :: rest)) ltac:(subst n; cbn [length]; lia)
              (d :: rest) eq_refl Hl) as (Hfilter & Hplaces & Hlength).
  change (group3 (a :: b :: c :: d :: rest))
    with (a :: b :: c :: ","%char :: group3 (d :: rest)).
  split; [|split].
  - cbn [List.filter].
    apply Ascii.eqb_neq in Ha, Hb, Hc. rewrite Ha, Hb, Hc. cbn [negb].
    change (Ascii.eqb "," ",") with true. cbn [negb]. rewrite Hfilter. reflexivity.
  - intros i x Hi.
    destruct i as [|[|[|[|i]]]]; cbn in Hi.
    1-3: (injection Hi as <-; split; [congruence|intros Hmod; cbn in Hmod; lia]).
    + injection Hi as <-. split; reflexivity.
    + rewrite (Hplaces i x Hi).
      replace (S (S (S (S i)))) with (i + 1 * 4)%nat by lia.
      rewrite Nat.Div0.mod_add. reflexivity.
  - cbn [length] in *. rewrite Hlength. subst n.
    replace (S (S (S (S (length rest)))) - 1)%nat with (S (length rest) - 1 + 1 * 3)%nat
      by lia.
    rewrite Nat.div_add by lia. lia.
Qed.

Lemma uint_no_comma (d : Decimal.uint) :
  Forall (fun c => c <> ","%char) (list_ascii_of_string (NilEmpty.string_of_uint d)).
Proof.
  induction d; cbn [NilEmpty.string_of_uint list_ascii_of_string];
    [apply Forall_nil_2 | ..]; (apply Forall_cons_2; [discriminate | assumption]).
Qed.

Lemma decimal_no_comma (n : Z) :
  Forall (fun c => c <> ","%char) (list_ascii_of_string (decimal n)).
Proof.
  unfold decimal, NilZero.string_of_uint.
  destruct (N.to_uint (Z.to_N n)) eqn:E;
    [apply Forall_cons_2; [discriminate | apply Forall_nil_2] | ..];
    rewrite <- E; apply uint_no_comma.
Qed.

Lemma string_length_list (s : string) :
  String.length s = length (list_ascii_of_string s).
Proof. induction s as [|a s IH]; cbn; [reflexivity | rewrite IH; reflexivity]. Qed.

(** X16: the row and column counts of the overview are shown with
    thousands separators. For a count [n >= 0], taking the commas out gives
    the decimal numeral back; counted from the right, every fourth character
    and no other is a comma; and the text is as long as the numeral plus one
    comma for every three digits that have a digit before them, so it never
    starts with a comma. *)
Theorem thousands_grouping (n : Z) :
  0 <= n ->
  without_commas (thousands n) = decimal n /\
  (forall i c, rev (list_ascii_of_string (thousands n)) !! i = Some c ->
               (c = ","%char <-> i mod 4 = 3)%nat) /\
  String.length (thousands n)
  = (String.length (decimal n) + (String.length (decimal n) - 1) / 3)%nat.
Proof.
  intros Hn.
  assert (Ht : list_ascii_of_string (thousands n)
               = rev (group3 (rev (list_ascii_of_string (decimal n))))).
  { unfold thousands.
    replace (n <? 0) with false by (symmetry; apply Z.ltb_ge; lia).
    rewrite Z.abs_eq by lia. cbn [sign_prefix String.append].
    apply list_ascii_of_string_of_list_ascii. }
  assert (Hd : Forall (fun c => c <> ","%char) (rev (list_ascii_of_string (decimal n)))).
  { apply Forall_forall. intros c Hc. apply list_elem_of_In, in_rev in Hc.
    pose proof (decimal_no_comma n) as Hall. rewrite Forall_forall in Hall.
    apply Hall, list_elem_of_In, Hc. }
  destruct (group3_spec _ Hd) as (Hfilter & Hplaces & Hlength).
  split; [|split].
  - unfold without_commas. rewrite Ht, List.filter_rev, Hfilter, rev_involutive.
    apply string_of_list_ascii_of_string.
  - intros i c. rewrite Ht, rev_involutive. apply Hplaces.
  - rewrite !string_length_list, Ht, length_rev, Hlength, length_rev. reflexivity.
Qed.

Lemma thousands_grouping_witness :
  without_commas (thousands 1234567) = decimal 1234567.
Proof. apply (thousands_grouping 1234567). lia. Defined.

End StreamlitApp.
